(** * eleventy-multisite: site discovery, per-site configuration and launch

    A shallow embedding of [src/lib.ts]: the logger proxy, [findSites],
    [runEleventy] and [matchSiteConfig], together with the part of Node's
    POSIX [path] module that [findSites] relies on.

    External collaborators are kept abstract: the glob expansion
    ([glob.sync]), the ignore rules read from [.gitignore], the glob test
    ([minimatch]) and the generator ([Eleventy]) are variables of the
    sections that use them. *)

From Stdlib Require Import String Ascii List Bool Arith NArith Lia.
Import ListNotations.
Open Scope list_scope.
Open Scope string_scope.

(** ** JavaScript values and string methods *)

Module JS.

(** Truthiness of an optional boolean field ([undefined] is falsy). *)
Definition truthy (b : option bool) : bool :=
  match b with
  | Some true => true
  | _ => false
  end.

(** Truthiness of an optional string field: [undefined] and the empty
    string are falsy. *)
Definition truthy_str (s : option string) : bool :=
  match s with
  | Some s => negb (s =? "")
  | None => false
  end.

(** [s.startsWith(p)] *)
Definition startsWith (s p : string) : bool := String.prefix p s.

(** [s.endsWith(suf)]: some suffix of [s] is [suf]. *)
Fixpoint endsWith (s suf : string) : bool :=
  (s =? suf) ||
  match s with
  | EmptyString => false
  | String _ s' => endsWith s' suf
  end.

(** [xs.includes(x)] on an array of strings. *)
Definition includes (xs : list string) (x : string) : bool :=
  existsb (String.eqb x) xs.

End JS.

(** ** Node's POSIX [path]: [join] and [relative]

    Paths are handled through their list of [/]-separated segments.
    [process.cwd()] is given as the segments of an absolute path. *)

Module Path.

(** The segments of a path between separators; ["a//b/"] gives
    [["a"; ""; "b"; ""]]. *)
Fixpoint segments (p : string) : list string :=
  match p with
  | EmptyString => [""]
  | String c p' =>
      match segments p' with
      | [] => [String c ""]
      | seg :: rest =>
          if Ascii.eqb c "/" then "" :: seg :: rest
          else String c seg :: rest
      end
  end.

(** [normalizeString]: empty and [.] segments are skipped, [..] removes
    the segment before it; a [..] with nothing to remove is kept when
    [allowAboveRoot] and skipped otherwise.  [res] holds the segments
    kept so far, last one first. *)
Fixpoint normalizeStack (allowAboveRoot : bool) (res segs : list string)
  : list string :=
  match segs with
  | [] => res
  | seg :: rest =>
      if (seg =? "") || (seg =? ".") then
        normalizeStack allowAboveRoot res rest
      else if seg =? ".." then
        match res with
        | top :: res' =>
            if top =? ".." then
              normalizeStack allowAboveRoot
                (if allowAboveRoot then ".." :: res else res) rest
            else normalizeStack allowAboveRoot res' rest
        | [] =>
            normalizeStack allowAboveRoot
              (if allowAboveRoot then [".."] else []) rest
        end
      else normalizeStack allowAboveRoot (seg :: res) rest
  end.

Definition normalizeString (allowAboveRoot : bool) (segs : list string)
  : list string :=
  rev (normalizeStack allowAboveRoot [] segs).

Definition isAbsolute (p : string) : bool := JS.startsWith p "/".

(** [path.normalize] *)
Definition normalize (p : string) : string :=
  if p =? "" then "."
  else
    let trailingSeparator := JS.endsWith p "/" in
    let body :=
      String.concat "/" (normalizeString (negb (isAbsolute p)) (segments p)) in
    if body =? "" then
      if isAbsolute p then "/"
      else if trailingSeparator then "./" else "."
    else
      (if isAbsolute p then "/" else "") ++ body ++
      (if trailingSeparator then "/" else "").

(** [path.join(a, b)]: empty arguments are left out. *)
Definition join (a b : string) : string :=
  if a =? "" then normalize b
  else if b =? "" then normalize a
  else normalize (a ++ "/" ++ b).

(** [path.resolve(p)] as the segments of the absolute path. *)
Definition resolve (cwd : list string) (p : string) : list string :=
  if isAbsolute p then normalizeString false (segments p)
  else normalizeString false (cwd ++ segments p)%list.

(** The two paths without their longest common leading segments. *)
Fixpoint stripCommon (a b : list string) : list string * list string :=
  match a, b with
  | x :: a', y :: b' => if x =? y then stripCommon a' b' else (a, b)
  | _, _ => (a, b)
  end.

(** [path.relative(from, to)]: one [..] for each segment left of
    [from], then what is left of [to]. *)
Definition relative (cwd : list string) (from to : string) : string :=
  let (up, down) := stripCommon (resolve cwd from) (resolve cwd to) in
  String.concat "/" (map (fun _ => "..") up ++ down)%list.

End Path.

(** ** Data model *)

Module SiteConfig.
Record t := mk {
  outDir : option string;
  configPath : option string;
  pathPrefix : option string;
  templateFormats : option (list string);
  ignoreGlobal : option bool
}.
End SiteConfig.

(** [string | [string, SiteConfig]] *)
Inductive SiteSpec :=
| Bare (glob : string)
| Pair (glob : string) (siteConfig : SiteConfig.t).

(** [string[] | string] *)
Inductive Patterns :=
| One (pattern : string)
| Many (patterns : list string).

Module Config.
Record t := mk {
  baseDir : string;
  outDir : string;
  sites : list SiteSpec;
  pathPrefix : option string;
  templateFormats : option (list string);
  excludes : option Patterns;
  includesDir : option string;
  layoutsDir : option string
}.
End Config.

Definition DEFAULT_CONFIG : Config.t :=
  {| Config.baseDir := "sites/";
     Config.outDir := "_out/";
     Config.sites := [Bare "*"];
     Config.pathPrefix := None;
     Config.templateFormats := None;
     Config.excludes := None;
     Config.includesDir := Some "_includes/";
     Config.layoutsDir := Some "_layouts/" |}.

Module RunOptions.
(** [configPath] is declared a string, but [runEleventy] tests it
    against [undefined], so it is optional here. *)
Record t := mk {
  sourceDir : string;
  outDir : string;
  configPath : option string;
  pathPrefix : option string;
  templateFormats : option (list string);
  port : option N;
  serve : option bool;
  watch : option bool;
  dryRun : option bool;
  incremental : option bool;
  quite : option bool;
  ignoreGlobal : option bool;
  globalConfigPath : option string
}.
End RunOptions.

(** ** Calls that may throw

    [None] stands for a thrown exception, which ends the caller too. *)

Module Throwing.

Definition bind {A B : Type} (c : option A) (k : A -> option B) : option B :=
  match c with
  | Some a => k a
  | None => None
  end.

(** [xs.filter(keep)] where the callback may throw. *)
Fixpoint filter (keep : string -> option bool) (xs : list string)
  : option (list string) :=
  match xs with
  | [] => Some []
  | x :: rest =>
      bind (keep x) (fun b =>
      bind (filter keep rest) (fun rest' =>
      Some (if b then x :: rest' else rest')))
  end.

End Throwing.

Notation "x <- c ;; k" := (Throwing.bind c (fun x => k))
  (at level 61, c at next level, right associativity).

(** ** The logger proxy *)

Module Logger.

Section Objects.
(** [Ev]: what a call on the wrapped logger does to the outside
    (lines written); [D]: property values that are not functions. *)
Variables Ev D : Type.

Inductive Value :=
| VUndefined
| VData (d : D)
| VFun (f : string -> Completion)
with Completion :=
| Return (effects : list Ev) (result : Value)
| Throw (effects : list Ev).

(** [v(arg)]; calling what is not a function throws. *)
Definition call (v : Value) (arg : string) : Completion :=
  match v with
  | VFun f => f arg
  | _ => Throw []
  end.

Definition effectsOf (c : Completion) : list Ev :=
  match c with
  | Return e _ => e
  | Throw e => e
  end.

(** A function body that calls and has no [return] statement. *)
Definition dropResult (c : Completion) : Completion :=
  match c with
  | Return e _ => Return e VUndefined
  | Throw e => Throw e
  end.

Definition intercepted : list string := ["log"; "forceLog"; "warn"; "error"].

Definition tag : string := "[multisite] ".

(** The [get] trap of the proxy around [target]. *)
Definition logger (target : string -> Value) (prop : string) : Value :=
  if JS.includes intercepted prop then
    VFun (fun msg => dropResult (call (target prop) (tag ++ msg)))
  else target prop.

End Objects.

Arguments VUndefined {Ev D}.
Arguments VData {Ev D} d.
Arguments VFun {Ev D} f.
Arguments Return {Ev D} effects result.
Arguments Throw {Ev D} effects.
Arguments call {Ev D} v arg.
Arguments effectsOf {Ev D} c.
Arguments dropResult {Ev D} c.
Arguments logger {Ev D} target prop.

End Logger.

(** ** findSites *)

(** [if(typeof patterns === 'string') patterns = [patterns]] *)
Definition patternList (patterns : Patterns) : list string :=
  match patterns with
  | One pattern => [pattern]
  | Many patterns => patterns
  end.

(** The [.gitignore] of the working directory as [findSites] finds it:
    not there, there but not readable, or read, with the test
    [ig.ignores] built from its rules (which throws on a path it does
    not accept). *)
Inductive Gitignore :=
| Absent
| Unreadable
| Rules (ignores : string -> option bool).

Section FindSites.
(** [process.cwd()], as segments. *)
Variable cwd : list string.
(** [glob.sync(pattern, { ignore })]: the file system's answer. *)
Variable globSync : string -> option Patterns -> list string.
(** The rules read from [.gitignore], if there is one: the test
    [ig.ignores], which throws on a path it does not accept. *)
Variable rules : option (string -> option bool).

(** The filter built at lines 88-91, applied to the matches of one
    pattern: [ig.filter] with a [.gitignore], the identity without. *)
Definition ignoreFilter (paths : list string) : option (list string) :=
  match rules with
  | Some ignores =>
      Throwing.filter
        (fun p => match ignores p with
                  | Some b => Some (negb b)
                  | None => None
                  end) paths
  | None => Some paths
  end.

(** [!relative(dir, base).startsWith('..')] *)
Definition inside (dir base : string) : bool :=
  negb (JS.startsWith (Path.relative cwd dir base) "..").

(** The condition of the [continue]. *)
Definition skipped (config : Config.t) (base : string) : bool :=
  inside (Config.outDir config) base
  || (match Config.includesDir config with
      | Some d => JS.truthy_str (Some d) && inside d base
      | None => false
      end)
  || (match Config.layoutsDir config with
      | Some d => JS.truthy_str (Some d) && inside d base
      | None => false
      end).

(** The inner loop over the matches of one pattern. *)
Fixpoint pushBases (config : Config.t) (bases results : list string)
  : list string :=
  match bases with
  | [] => results
  | base :: rest =>
      if skipped config base then pushBases config rest results
      else pushBases config rest
             (results ++ [Path.relative cwd (Config.baseDir config) base])%list
  end.

(** What [glob.sync] is asked for one pattern. *)
Definition globPattern (config : Config.t) (pattern : string) : string :=
  let pattern := if JS.endsWith pattern "/" then pattern else pattern ++ "/" in
  Path.join (Config.baseDir config) pattern.

(** The outer loop over the patterns. *)
Fixpoint eachPattern (config : Config.t) (patterns results : list string)
  : option (list string) :=
  match patterns with
  | [] => Some results
  | pattern :: rest =>
      bases <- ignoreFilter
                 (globSync (globPattern config pattern) (Config.excludes config)) ;;
      eachPattern config rest (pushBases config bases results)
  end.

End FindSites.

(** [findSites] starts by reading [.gitignore] (lines 88-91), before any
    pattern is looked at: [existsSync] guards against a missing file,
    and [readFileSync] throws on one that is there but cannot be read (a
    directory, or a file without read permission). *)
Definition readGitignore (gitignore : Gitignore)
  : option (option (string -> option bool)) :=
  match gitignore with
  | Absent => Some None
  | Unreadable => None
  | Rules ignores => Some (Some ignores)
  end.

Definition findSites (cwd : list string)
  (globSync : string -> option Patterns -> list string)
  (gitignore : Gitignore) (config : Config.t) (patterns : Patterns)
  : option (list string) :=
  rules <- readGitignore gitignore ;;
  eachPattern cwd globSync rules config (patternList patterns) [].

(** ** runEleventy *)

(** What [runEleventy] does to the outside, in order: the calls on the
    generator, the loading of a configuration module, and whatever the
    wrapped logger does ([L] is the logger's own effect). *)
Inductive Event (L : Type) :=
| NewEleventy (sourceDir outDir : string) (quietMode : option bool)
    (configPath : option string)
| SetPathPrefix (pathPrefix : option string)
| SetDryRun (dryRun : option bool)
| SetIncrementalBuild (incremental : option bool)
| SetFormats (templateFormats : option (list string))
| RequireConfig (configPath : string)
| Init
| Watch
| Serve (port : option N)
| Write
| Logged (effect : L).

Arguments NewEleventy {L} sourceDir outDir quietMode configPath.
Arguments SetPathPrefix {L} pathPrefix.
Arguments SetDryRun {L} dryRun.
Arguments SetIncrementalBuild {L} incremental.
Arguments SetFormats {L} templateFormats.
Arguments RequireConfig {L} configPath.
Arguments Init {L}.
Arguments Watch {L}.
Arguments Serve {L} port.
Arguments Write {L}.
Arguments Logged {L} effect.

(** How the generator's two promises settle.  Its other calls return. *)
Record Generator := {
  init_resolves : bool;
  watch_resolves : bool
}.

Section RunEleventy.
Variables L D : Type.
(** The [ConsoleLogger] instance behind [logger]. *)
Variable consoleLogger : string -> Logger.Value L D.
Variable eleventy : Generator.

(** The [configPath] option given to the constructor. *)
Definition constructorConfigPath (options : RunOptions.t) : option string :=
  if JS.truthy (RunOptions.ignoreGlobal options)
  then RunOptions.configPath options
  else RunOptions.globalConfigPath options.

(** Everything before [eleventy.init()]. *)
Definition configure (options : RunOptions.t) : list (Event L) :=
  ([ NewEleventy (RunOptions.sourceDir options) (RunOptions.outDir options)
       (RunOptions.quite options) (constructorConfigPath options);
     SetPathPrefix (RunOptions.pathPrefix options);
     SetDryRun (RunOptions.dryRun options);
     SetIncrementalBuild (RunOptions.incremental options);
     SetFormats (RunOptions.templateFormats options) ]
   ++ match RunOptions.configPath options with
      | Some p =>
          if negb (JS.truthy (RunOptions.ignoreGlobal options))
          then [RequireConfig p] else []
      | None => []
      end)%list.

(** The continuation of [eleventy.watch().catch(...)]. *)
Definition afterWatch (options : RunOptions.t) (watched : bool)
  : list (Event L) :=
  if JS.truthy (RunOptions.serve options) && watched then
    [Serve (RunOptions.port options)]
  else
    map Logged
      (Logger.effectsOf
         (Logger.call (Logger.logger consoleLogger "forceLog")
            ("Started watching site " ++ RunOptions.sourceDir options))).

(** The continuation of [eleventy.init()]. *)
Definition afterInit (options : RunOptions.t) : list (Event L) :=
  if JS.truthy (RunOptions.serve options) || JS.truthy (RunOptions.watch options)
  then Watch :: afterWatch options (watch_resolves eleventy)
  else [Write].

Definition runEleventy (options : RunOptions.t) : list (Event L) :=
  (configure options
   ++ Init :: (if init_resolves eleventy then afterInit options else []))%list.

End RunEleventy.

(** ** matchSiteConfig *)

Definition globOf (siteSpec : SiteSpec) : string :=
  match siteSpec with
  | Bare glob => glob
  | Pair glob _ => glob
  end.

(** What the function returns at a matching [siteSpec]; [None] is
    JavaScript's [undefined]. *)
Definition returned (siteSpec : SiteSpec) : option SiteConfig.t :=
  match siteSpec with
  | Bare _ => None
  | Pair _ siteConfig => Some siteConfig
  end.

Section MatchSiteConfig.
(** [minimatch(site, glob)] *)
Variable minimatch : string -> string -> bool.

Fixpoint matchSites (sites : list SiteSpec) (site : string)
  : option SiteConfig.t :=
  match sites with
  | [] => None
  | siteSpec :: rest =>
      if minimatch site (globOf siteSpec) then returned siteSpec
      else matchSites rest site
  end.

Definition matchSiteConfig (config : Config.t) (site : string)
  : option SiteConfig.t :=
  matchSites (Config.sites config) site.

End MatchSiteConfig.

(** The same loop with the state of the outside made explicit: the glob
    test reads and may change a world [W] (caches, counters, anything
    outside the two arguments). *)
Section MatchSiteConfigInWorld.
Variable W : Type.
Variable minimatchW : string -> string -> W -> bool * W.

Fixpoint matchSitesW (sites : list SiteSpec) (site : string) (w : W)
  : option SiteConfig.t * W :=
  match sites with
  | [] => (None, w)
  | siteSpec :: rest =>
      let (matched, w') := minimatchW site (globOf siteSpec) w in
      if matched then (returned siteSpec, w')
      else matchSitesW rest site w'
  end.

Definition matchSiteConfigW (config : Config.t) (site : string) (w : W)
  : option SiteConfig.t * W :=
  matchSitesW (Config.sites config) site w.

End MatchSiteConfigInWorld.

(** ** The contract in the words of the specification *)

(** The three outcomes the specification gives [matchSiteConfig]. *)
Inductive Resolution :=
| Override (siteConfig : SiteConfig.t)
| UseDefault
| NoMatch.

(** The first matching SiteSpec decides: its override for a pair,
    "use default" for a bare string; "no match" when none matches. *)
Fixpoint specResolve (minimatch : string -> string -> bool)
  (sites : list SiteSpec) (site : string) : Resolution :=
  match sites with
  | [] => NoMatch
  | siteSpec :: rest =>
      if minimatch site (globOf siteSpec) then
        match siteSpec with
        | Bare _ => UseDefault
        | Pair _ siteConfig => Override siteConfig
        end
      else specResolve minimatch rest site
  end.

(** What is left of an outcome in a [SiteConfig | undefined]. *)
Definition asReturned (r : Resolution) : option SiteConfig.t :=
  match r with
  | Override siteConfig => Some siteConfig
  | UseDefault => None
  | NoMatch => None
  end.

(** ** Paths that stay below the working directory *)

(** The named segments of a path: those that are neither empty nor [.]. *)
Definition steps (p : string) : list string :=
  filter (fun seg => negb ((seg =? "") || (seg =? "."))) (Path.segments p).

(** A relative path that never climbs with [..]. *)
Definition descends (p : string) : bool :=
  negb (Path.isAbsolute p) && forallb (fun seg => negb (seg =? "..")) (steps p).


(** ** Worked inputs *)

Definition exampleCwd : list string := ["home"; "user"; "project"].

(** A project with [sites/_includes/], [sites/_out/] and [sites/blog/]. *)
Definition exampleGlobSync (pattern : string) (ignore : option Patterns)
  : list string :=
  if pattern =? "sites/*/" then ["sites/_includes/"; "sites/_out/"; "sites/blog/"]
  else [].

(** The configuration of the specification's discovery example. *)
Definition exampleConfig : Config.t :=
  {| Config.baseDir := "sites/";
     Config.outDir := "sites/_out/";
     Config.sites := [Bare "*"];
     Config.pathPrefix := None;
     Config.templateFormats := None;
     Config.excludes := None;
     Config.includesDir := Some "sites/_includes/";
     Config.layoutsDir := None |}.

(** The pairs (site, glob) on which [minimatch] answers yes, among the
    sites and globs used below. *)
Definition exampleMatches : list (string * string) :=
  [("blog/sub", "blog/*"); ("docs", "docs"); ("docs", "d*"); ("docs", "*")].

Definition exampleMinimatch (site glob : string) : bool :=
  existsb (fun m => (fst m =? site) && (snd m =? glob)) exampleMatches.

Definition docsConfig : SiteConfig.t :=
  {| SiteConfig.outDir := None;
     SiteConfig.configPath := Some "docs.config.js";
     SiteConfig.pathPrefix := None;
     SiteConfig.templateFormats := None;
     SiteConfig.ignoreGlobal := None |}.

Definition laterConfig : SiteConfig.t :=
  {| SiteConfig.outDir := Some "_late/";
     SiteConfig.configPath := None;
     SiteConfig.pathPrefix := None;
     SiteConfig.templateFormats := None;
     SiteConfig.ignoreGlobal := None |}.

Definition withSites (sites : list SiteSpec) : Config.t :=
  {| Config.baseDir := "sites/";
     Config.outDir := "_out/";
     Config.sites := sites;
     Config.pathPrefix := None;
     Config.templateFormats := None;
     Config.excludes := None;
     Config.includesDir := None;
     Config.layoutsDir := None |}.

(** [sites = ["blog/*", ["docs", {configPath: "docs.config.js"}]]] *)
Definition exampleSites : list SiteSpec :=
  [Bare "blog/*"; Pair "docs" docsConfig].

(** A glob test that also counts its calls. *)
Definition countingMinimatch (site glob : string) (calls : nat) : bool * nat :=
  (exampleMinimatch site glob, S calls).

(** A console logger that records the method and the message. *)
Definition exampleConsole (prop : string) : Logger.Value (string * string) unit :=
  if JS.includes ["log"; "forceLog"; "warn"; "error"] prop then
    Logger.VFun (fun msg => Logger.Return [(prop, msg)] Logger.VUndefined)
  else if prop =? "isVerbose" then Logger.VData tt
  else Logger.VUndefined.

Definition exampleOptions (serve watch ignoreGlobal : option bool)
  (globalConfigPath : option string) : RunOptions.t :=
  {| RunOptions.sourceDir := "sites/blog";
     RunOptions.outDir := "_out/blog";
     RunOptions.configPath := Some "sites/blog/.eleventy.js";
     RunOptions.pathPrefix := None;
     RunOptions.templateFormats := None;
     RunOptions.port := Some 8080%N;
     RunOptions.serve := serve;
     RunOptions.watch := watch;
     RunOptions.dryRun := None;
     RunOptions.incremental := None;
     RunOptions.quite := None;
     RunOptions.ignoreGlobal := ignoreGlobal;
     RunOptions.globalConfigPath := globalConfigPath |}.


(** Ignore rules that accept no path at all: the test throws on every
    path it is given. *)
Definition rejectingIgnore : Gitignore :=
  Rules (fun _ => None).

(** A configuration whose [includesDir] is the empty string, that is the
    working directory itself. *)
Definition emptyIncludesConfig : Config.t :=
  {| Config.baseDir := "sites/";
     Config.outDir := "sites/_out/";
     Config.sites := [Bare "*"];
     Config.pathPrefix := None;
     Config.templateFormats := None;
     Config.excludes := None;
     Config.includesDir := Some "";
     Config.layoutsDir := None |}.

(** Ignore rules that ignore [sites/_includes/] and nothing else. *)
Definition exampleIgnore : Gitignore :=
  Rules (fun p => Some (p =? "sites/_includes/")).

(** A wrapped object without any of the logging methods. *)
Definition bareConsole (prop : string) : Logger.Value (string * string) unit :=
  Logger.VUndefined.

(** * Properties *)

(** ** matchSiteConfig *)

Section MatchSiteConfigFacts.
Variable minimatch : string -> string -> bool.

Lemma matchSites_asReturned (sites : list SiteSpec) (site : string) :
  matchSites minimatch sites site
  = asReturned (specResolve minimatch sites site).
Proof.
  induction sites as [| siteSpec rest IH]; simpl.
  - reflexivity.
  - destruct (minimatch site (globOf siteSpec)).
    + destruct siteSpec; reflexivity.
    + exact IH.
Qed.

Lemma matchSites_skip (before rest : list SiteSpec) (site : string) :
  (forall s, In s before -> minimatch site (globOf s) = false) ->
  matchSites minimatch (before ++ rest) site = matchSites minimatch rest site.
Proof.
  induction before as [| s before IH]; intros Hno; simpl.
  - reflexivity.
  - rewrite (Hno s (or_introl eq_refl)).
    apply IH. intros s' Hin. apply Hno. right. exact Hin.
Qed.

End MatchSiteConfigFacts.

(** C1, as amended.  [matchSiteConfig] has two kinds of result, not three:
    the override object of the first matching SiteSpec when that is a
    pair, and [undefined] otherwise; [undefined] stands both for a first
    match that is a bare string and for no match at all. *)
Theorem matchSiteConfig_two_outcomes
  (minimatch : string -> string -> bool) (config : Config.t) (site : string) :
  matchSiteConfig minimatch config site
  = match specResolve minimatch (Config.sites config) site with
    | Override siteConfig => Some siteConfig
    | UseDefault => None
    | NoMatch => None
    end.
Proof.
  unfold matchSiteConfig. rewrite matchSites_asReturned. reflexivity.
Qed.

(** C1, as stated, fails: with the sites of the specification's example,
    ["blog/sub"] resolves to "use default" and ["other"] to "no match",
    and [matchSiteConfig] returns the same value for both. *)
Lemma matchSiteConfig_no_match_like_use_default :
  specResolve exampleMinimatch exampleSites "blog/sub" = UseDefault /\
  specResolve exampleMinimatch exampleSites "other" = NoMatch /\
  matchSiteConfig exampleMinimatch (withSites exampleSites) "blog/sub"
  = matchSiteConfig exampleMinimatch (withSites exampleSites) "other".
Proof.
  repeat split; reflexivity.
Qed.

(** C5.  When several SiteSpecs match the site, the result is the one of
    the first of them in declaration order: its override for a pair,
    [undefined] (use default) for a bare string, whatever follows it. *)
Theorem matchSiteConfig_first_match
  (minimatch : string -> string -> bool) (config : Config.t)
  (before : list SiteSpec) (first : SiteSpec) (after : list SiteSpec)
  (site : string) :
  Config.sites config = (before ++ first :: after)%list ->
  (forall s, In s before -> minimatch site (globOf s) = false) ->
  minimatch site (globOf first) = true ->
  matchSiteConfig minimatch config site
  = match first with
    | Bare _ => None
    | Pair _ siteConfig => Some siteConfig
    end.
Proof.
  intros Hsites Hbefore Hfirst.
  unfold matchSiteConfig. rewrite Hsites.
  rewrite matchSites_skip by exact Hbefore.
  simpl. rewrite Hfirst. destruct first; reflexivity.
Qed.

Lemma matchSiteConfig_first_match_witness :
  matchSiteConfig exampleMinimatch
    (withSites [Bare "blog/*"; Pair "docs" docsConfig;
                Pair "d*" laterConfig; Bare "*"]) "docs"
  = Some docsConfig.
Proof.
  apply (matchSiteConfig_first_match exampleMinimatch
           (withSites [Bare "blog/*"; Pair "docs" docsConfig;
                       Pair "d*" laterConfig; Bare "*"])
           [Bare "blog/*"] (Pair "docs" docsConfig)
           [Pair "d*" laterConfig; Bare "*"] "docs").
  - reflexivity.
  - intros s [Hs | []]. rewrite <- Hs. reflexivity.
  - reflexivity.
Defined.

(** ** The logger proxy *)

Section LoggerFacts.
Variables Ev D : Type.
Variable target : string -> Logger.Value Ev D.

Lemma logger_intercepted (prop msg : string) :
  JS.includes Logger.intercepted prop = true ->
  Logger.call (Logger.logger target prop) msg
  = Logger.dropResult (Logger.call (target prop) ("[multisite] " ++ msg)).
Proof.
  intros Hin. unfold Logger.logger. rewrite Hin. reflexivity.
Qed.

Lemma logger_passes (prop : string) :
  JS.includes Logger.intercepted prop = false ->
  Logger.logger target prop = target prop.
Proof.
  intros Hout. unfold Logger.logger. rewrite Hout. reflexivity.
Qed.

Lemma forceLog_effects (msg : string) :
  Logger.effectsOf (Logger.call (Logger.logger target "forceLog") msg)
  = Logger.effectsOf (Logger.call (target "forceLog") ("[multisite] " ++ msg)).
Proof.
  rewrite logger_intercepted by reflexivity.
  destruct (Logger.call (target "forceLog") ("[multisite] " ++ msg));
    reflexivity.
Qed.

End LoggerFacts.

(** C10.  Each of [log], [forceLog], [warn] and [error] of the proxy
    calls the wrapped logger's method of the same name with
    ["[multisite] "] prepended to the message (and returns nothing of its
    own); every other property read gives the wrapped logger's property
    unchanged. *)
Theorem logger_prefixes_and_passes_through
  (Ev D : Type) (target : string -> Logger.Value Ev D) (msg : string) :
  (forall prop, In prop ["log"; "forceLog"; "warn"; "error"] ->
     Logger.call (Logger.logger target prop) msg
     = Logger.dropResult (Logger.call (target prop) ("[multisite] " ++ msg))
     /\ Logger.effectsOf (Logger.call (Logger.logger target prop) msg)
        = Logger.effectsOf (Logger.call (target prop) ("[multisite] " ++ msg)))
  /\ (forall prop, ~ In prop ["log"; "forceLog"; "warn"; "error"] ->
        Logger.logger target prop = target prop).
Proof.
  split.
  - intros prop Hin.
    assert (Hinc : JS.includes Logger.intercepted prop = true).
    { simpl in Hin.
      destruct Hin as [H | [H | [H | [H | []]]]]; rewrite <- H; reflexivity. }
    rewrite logger_intercepted by exact Hinc.
    split; [reflexivity |].
    destruct (Logger.call (target prop) ("[multisite] " ++ msg)); reflexivity.
  - intros prop Hout. apply logger_passes.
    unfold JS.includes, Logger.intercepted.
    apply not_true_is_false. intros Hex.
    apply existsb_exists in Hex. destruct Hex as [x [Hx Heq]].
    apply String.eqb_eq in Heq. subst x. exact (Hout Hx).
Qed.

Lemma logger_prefixes_and_passes_through_witness :
  Logger.call (Logger.logger exampleConsole "warn") "no sites found"
  = Logger.Return [("warn", "[multisite] no sites found")] Logger.VUndefined
  /\ Logger.logger exampleConsole "isVerbose" = Logger.VData tt.
Proof.
  destruct (logger_prefixes_and_passes_through
              (string * string) unit exampleConsole "no sites found")
    as [Hfour Hother].
  split.
  - destruct (Hfour "warn") as [Hcall _].
    + simpl. right. right. left. reflexivity.
    + exact Hcall.
  - apply (Hother "isVerbose").
    simpl. intros [H | [H | [H | [H | []]]]]; discriminate H.
Defined.

(** ** runEleventy *)

Section RunEleventyFacts.
Variables L D : Type.
Variable consoleLogger : string -> Logger.Value L D.
Variable eleventy : Generator.

Lemma configure_head (options : RunOptions.t) :
  exists rest,
    configure L options
    = NewEleventy (RunOptions.sourceDir options) (RunOptions.outDir options)
        (RunOptions.quite options) (constructorConfigPath options) :: rest.
Proof.
  unfold configure. simpl. eexists. reflexivity.
Qed.

Lemma configure_no_serve (options : RunOptions.t) (port : option N) :
  ~ In (Serve port) (configure L options).
Proof.
  unfold configure. intros Hin. apply in_app_or in Hin.
  destruct Hin as [Hin | Hin].
  - simpl in Hin.
    destruct Hin as [H | [H | [H | [H | [H | []]]]]]; discriminate H.
  - destruct (RunOptions.configPath options) as [p |]; [| exact Hin].
    destruct (negb (JS.truthy (RunOptions.ignoreGlobal options)));
      [| exact Hin].
    destruct Hin as [H | []]. discriminate H.
Qed.

Lemma logged_no_serve (effects : list L) (port : option N) :
  ~ In (Serve port) (map Logged effects).
Proof.
  intros Hin. apply in_map_iff in Hin.
  destruct Hin as [e [H _]]. discriminate H.
Qed.

End RunEleventyFacts.

(** C2, as amended.  The configuration path handed to the generator's
    constructor is the site's own [configPath] when [ignoreGlobal] is
    set, and [globalConfigPath] otherwise, supplied or not: when it is
    absent the constructor gets no path. *)
Theorem runEleventy_constructor_configPath
  (L D : Type) (consoleLogger : string -> Logger.Value L D)
  (eleventy : Generator) (options : RunOptions.t) :
  exists rest,
    runEleventy L D consoleLogger eleventy options
    = NewEleventy (RunOptions.sourceDir options) (RunOptions.outDir options)
        (RunOptions.quite options)
        (if JS.truthy (RunOptions.ignoreGlobal options)
         then RunOptions.configPath options
         else RunOptions.globalConfigPath options)
      :: rest.
Proof.
  unfold runEleventy.
  destruct (configure_head L options) as [rest Hrest].
  rewrite Hrest. simpl. eexists. reflexivity.
Qed.

(** C2, as stated, fails: with [ignoreGlobal] false and no
    [globalConfigPath], the constructor is not given the site's own
    [configPath] but none at all. *)
Lemma runEleventy_ignores_site_configPath :
  RunOptions.configPath (exampleOptions None None (Some false) None)
  = Some "sites/blog/.eleventy.js"
  /\ hd_error
       (runEleventy (string * string) unit exampleConsole
          {| init_resolves := true; watch_resolves := true |}
          (exampleOptions None None (Some false) None))
     = Some (NewEleventy "sites/blog" "_out/blog" None None).
Proof.
  split; reflexivity.
Qed.

(** C8.  Once initialisation has completed: if serve or watch is
    requested and the watch setup fails, no serve is started and the
    notice ["Started watching site ..."] goes through the logger's
    [forceLog]; if the watch setup succeeds and serve is requested, serve
    is started on the configured port; if neither is requested, the
    output is written once. *)
Theorem runEleventy_after_init
  (L D : Type) (consoleLogger : string -> Logger.Value L D)
  (eleventy : Generator) (options : RunOptions.t) :
  init_resolves eleventy = true ->
  (JS.truthy (RunOptions.serve options) || JS.truthy (RunOptions.watch options)
   = true ->
   watch_resolves eleventy = false ->
   runEleventy L D consoleLogger eleventy options
   = (configure L options ++
      Init :: Watch ::
      map Logged
        (Logger.effectsOf
           (Logger.call (consoleLogger "forceLog")
              ("[multisite] Started watching site "
               ++ RunOptions.sourceDir options))))%list
   /\ forall port,
        ~ In (Serve port) (runEleventy L D consoleLogger eleventy options))
  /\ (JS.truthy (RunOptions.serve options) = true ->
      watch_resolves eleventy = true ->
      runEleventy L D consoleLogger eleventy options
      = (configure L options ++
         [Init; Watch; Serve (RunOptions.port options)])%list)
  /\ (JS.truthy (RunOptions.serve options) || JS.truthy (RunOptions.watch options)
      = false ->
      runEleventy L D consoleLogger eleventy options
      = (configure L options ++ [Init; Write])%list).
Proof.
  intros Hinit. unfold runEleventy, afterInit, afterWatch. rewrite Hinit.
  split; [| split].
  - intros Hasked Hfails.
    rewrite Hasked, Hfails, andb_false_r, forceLog_effects.
    split; [reflexivity |].
    intros port Hin. apply in_app_or in Hin. destruct Hin as [Hin | Hin].
    + exact (configure_no_serve L options port Hin).
    + destruct Hin as [Hd | [Hd | Hin]]; try discriminate.
      exact (logged_no_serve L _ port Hin).
  - intros Hserve Hwatch. rewrite Hserve, Hwatch. reflexivity.
  - intros Hnone. rewrite Hnone. reflexivity.
Qed.

Lemma runEleventy_after_init_witness :
  runEleventy (string * string) unit exampleConsole
    {| init_resolves := true; watch_resolves := false |}
    (exampleOptions (Some true) None None None)
  = [ NewEleventy "sites/blog" "_out/blog" None None;
      SetPathPrefix None; SetDryRun None; SetIncrementalBuild None;
      SetFormats None; RequireConfig "sites/blog/.eleventy.js";
      Init; Watch;
      Logged ("forceLog", "[multisite] Started watching site sites/blog") ].
Proof.
  destruct (runEleventy_after_init (string * string) unit exampleConsole
              {| init_resolves := true; watch_resolves := false |}
              (exampleOptions (Some true) None None None) eq_refl)
    as [Hfail _].
  destruct (Hfail eq_refl eq_refl) as [Htrace _].
  exact Htrace.
Defined.

(** ** Paths *)

Lemma endsWith_appended (p suf : string) : JS.endsWith (p ++ suf) suf = true.
Proof.
  induction p as [| c p IH]; simpl.
  - destruct suf; cbn [JS.endsWith]; rewrite String.eqb_refl; reflexivity.
  - rewrite IH. apply orb_true_r.
Qed.

Lemma normalizeStack_app (allow : bool) (xs ys res : list string) :
  Path.normalizeStack allow res (xs ++ ys)
  = Path.normalizeStack allow (Path.normalizeStack allow res xs) ys.
Proof.
  revert res. induction xs as [| x xs IH]; intros res; simpl.
  - reflexivity.
  - destruct ((x =? "") || (x =? ".")); [apply IH |].
    destruct (x =? "..").
    + destruct res as [| top res']; [apply IH |].
      destruct (top =? ".."); apply IH.
    + apply IH.
Qed.

Lemma normalizeStack_descending (allow : bool) (segs res : list string) :
  forallb (fun seg => negb (seg =? ".."))
    (filter (fun seg => negb ((seg =? "") || (seg =? "."))) segs) = true ->
  Path.normalizeStack allow res segs
  = (rev (filter (fun seg => negb ((seg =? "") || (seg =? "."))) segs) ++ res)%list.
Proof.
  revert res. induction segs as [| seg segs IH]; intros res Hdown; simpl in *.
  - reflexivity.
  - destruct ((seg =? "") || (seg =? ".")); simpl in *.
    + apply IH. exact Hdown.
    + apply andb_true_iff in Hdown. destruct Hdown as [Hseg Hdown].
      apply negb_true_iff in Hseg. rewrite Hseg.
      rewrite IH by exact Hdown. rewrite <- app_assoc. reflexivity.
Qed.

Lemma resolve_descends (cwd : list string) (p : string) :
  descends p = true ->
  Path.resolve cwd p = (Path.normalizeString false cwd ++ steps p)%list.
Proof.
  unfold descends, Path.resolve, Path.normalizeString, steps.
  intros Hd. apply andb_true_iff in Hd. destruct Hd as [Hrel Hdown].
  apply negb_true_iff in Hrel. rewrite Hrel.
  rewrite normalizeStack_app, normalizeStack_descending by exact Hdown.
  rewrite rev_app_distr, rev_involutive. reflexivity.
Qed.

Lemma stripCommon_app (c a b : list string) :
  Path.stripCommon (c ++ a) (c ++ b) = Path.stripCommon a b.
Proof.
  induction c as [| x c IH]; simpl.
  - reflexivity.
  - rewrite String.eqb_refl. exact IH.
Qed.




(** ** findSites *)

Section FindSitesFacts.
Variable cwd : list string.
Variable globSync : string -> option Patterns -> list string.
Variable rules : option (string -> option bool).

Lemma filter_sub (keep : string -> option bool) (xs ys : list string) :
  Throwing.filter keep xs = Some ys -> forall y, In y ys -> In y xs.
Proof.
  revert ys. induction xs as [| x xs IH]; intros ys Hf y Hy; simpl in Hf.
  - injection Hf as <-. exact Hy.
  - destruct (keep x) as [b |]; [| discriminate]. simpl in Hf.
    destruct (Throwing.filter keep xs) as [rest |]; [| discriminate].
    simpl in Hf. injection Hf as <-.
    destruct b.
    + destruct Hy as [<- | Hy]; [left; reflexivity | right; eauto].
    + right. eauto.
Qed.

Lemma ignoreFilter_sub (xs ys : list string) :
  ignoreFilter rules xs = Some ys -> forall y, In y ys -> In y xs.
Proof.
  unfold ignoreFilter. destruct rules as [ignores |].
  - apply filter_sub.
  - intros H. injection H as <-. auto.
Qed.


Lemma pushBases_spec (config : Config.t) (bases results : list string) :
  pushBases cwd config bases results
  = (results ++
     map (Path.relative cwd (Config.baseDir config))
       (filter (fun base => negb (skipped cwd config base)) bases))%list.
Proof.
  revert results. induction bases as [| base bases IH]; intros results; simpl.
  - rewrite app_nil_r. reflexivity.
  - destruct (skipped cwd config base); simpl.
    + apply IH.
    + rewrite IH, <- app_assoc. reflexivity.
Qed.

Lemma skipped_false (config : Config.t) (base : string) :
  skipped cwd config base = false <->
  inside cwd (Config.outDir config) base = false
  /\ (forall d, Config.includesDir config = Some d -> d <> "" ->
        inside cwd d base = false)
  /\ (forall d, Config.layoutsDir config = Some d -> d <> "" ->
        inside cwd d base = false).
Proof using cwd.
  unfold skipped. rewrite !orb_false_iff.
  assert (Hopt : forall o : option string,
    match o with
    | Some d => JS.truthy_str (Some d) && inside cwd d base
    | None => false
    end = false <->
    (forall d, o = Some d -> d <> "" -> inside cwd d base = false)).
  { intros [d |]; simpl.
    - split.
      + intros H d' Hd' Hne. injection Hd' as <-.
        apply String.eqb_neq in Hne. rewrite Hne in H. exact H.
      + intros H. destruct (d =? "") eqn:E; [reflexivity |].
        apply String.eqb_neq in E. simpl. exact (H d eq_refl E).
    - split; [discriminate | reflexivity]. }
  split.
  - intros [[Hout Hinc] Hlay]. split; [exact Hout |].
    split; apply Hopt; assumption.
  - intros [Hout [Hinc Hlay]]. split; [split; [exact Hout |] |];
      apply Hopt; assumption.
Qed.

Lemma eachPattern_results (config : Config.t) (patterns results out : list string) :
  eachPattern cwd globSync rules config patterns results = Some out ->
  forall site, In site out ->
    In site results \/
    exists pattern base,
      In pattern patterns
      /\ In base (globSync (globPattern config pattern) (Config.excludes config))
      /\ skipped cwd config base = false
      /\ site = Path.relative cwd (Config.baseDir config) base.
Proof.
  revert results out.
  induction patterns as [| pattern rest IH]; intros results out Hrun site Hin;
    simpl in Hrun.
  - injection Hrun as <-. left. exact Hin.
  - destruct (ignoreFilter rules
                (globSync (globPattern config pattern) (Config.excludes config)))
      as [bases |] eqn:Hbases; [| discriminate].
    simpl in Hrun.
    destruct (IH _ _ Hrun site Hin) as [Hold | [p [base [Hp Hrest]]]].
    + rewrite pushBases_spec in Hold. apply in_app_or in Hold.
      destruct Hold as [Hold | Hnew]; [left; exact Hold |].
      right. apply in_map_iff in Hnew. destruct Hnew as [base [Hrel Hkept]].
      apply filter_In in Hkept. destruct Hkept as [Hbase Hkeep].
      exists pattern, base. repeat split.
      * left. reflexivity.
      * exact (ignoreFilter_sub _ _ Hbases base Hbase).
      * apply negb_true_iff. exact Hkeep.
      * symmetry. exact Hrel.
    + right. exists p, base. destruct Hrest as [H1 [H2 H3]].
      repeat split; try assumption. right. exact Hp.
Qed.

Lemma eachPattern_keeps (config : Config.t) (patterns results out : list string) :
  eachPattern cwd globSync rules config patterns results = Some out ->
  forall site, In site results -> In site out.
Proof.
  revert results out.
  induction patterns as [| pattern rest IH]; intros results out Hrun site Hin;
    simpl in Hrun.
  - injection Hrun as <-. exact Hin.
  - destruct (ignoreFilter rules
                (globSync (globPattern config pattern) (Config.excludes config)))
      as [bases |]; [| discriminate].
    simpl in Hrun. apply (IH _ _ Hrun).
    rewrite pushBases_spec. apply in_or_app. left. exact Hin.
Qed.

Lemma filter_keeps (keep : string -> option bool) (xs ys : list string)
  (x : string) :
  Throwing.filter keep xs = Some ys ->
  In x xs -> keep x = Some true -> In x ys.
Proof.
  revert ys. induction xs as [| x' xs IH]; intros ys Hf Hin Hkeep;
    simpl in Hf.
  - destruct Hin.
  - destruct (keep x') as [b |] eqn:Hb; [| discriminate]. simpl in Hf.
    destruct (Throwing.filter keep xs) as [rest |]; [| discriminate].
    simpl in Hf. injection Hf as <-.
    destruct Hin as [-> | Hin].
    + rewrite Hkeep in Hb. injection Hb as <-. left. reflexivity.
    + destruct b; [right |]; exact (IH rest eq_refl Hin Hkeep).
Qed.

Lemma ignoreFilter_keeps (xs ys : list string) (x : string) :
  ignoreFilter rules xs = Some ys ->
  In x xs ->
  (forall ignores, rules = Some ignores -> ignores x = Some false) ->
  In x ys.
Proof.
  unfold ignoreFilter. destruct rules as [ignores |]; intros Hf Hin Hok.
  - apply (filter_keeps _ _ _ _ Hf Hin).
    rewrite (Hok ignores eq_refl). reflexivity.
  - injection Hf as <-. exact Hin.
Qed.

Lemma eachPattern_pushes (config : Config.t) (patterns results out : list string)
  (pattern base : string) :
  eachPattern cwd globSync rules config patterns results = Some out ->
  In pattern patterns ->
  In base (globSync (globPattern config pattern) (Config.excludes config)) ->
  (forall ignores, rules = Some ignores -> ignores base = Some false) ->
  skipped cwd config base = false ->
  In (Path.relative cwd (Config.baseDir config) base) out.
Proof.
  revert results out.
  induction patterns as [| p rest IH];
    intros results out Hrun Hp Hbase Hok Hkept; simpl in Hrun.
  - destruct Hp.
  - destruct (ignoreFilter rules
                (globSync (globPattern config p) (Config.excludes config)))
      as [bases |] eqn:Hbases; [| discriminate].
    simpl in Hrun. destruct Hp as [-> | Hp].
    + apply (eachPattern_keeps _ _ _ _ Hrun).
      rewrite pushBases_spec. apply in_or_app. right.
      apply in_map. apply filter_In. split.
      * exact (ignoreFilter_keeps _ _ _ Hbases Hbase Hok).
      * rewrite Hkept. reflexivity.
    + exact (IH _ _ Hrun Hp Hbase Hok Hkept).
Qed.

Lemma eachPattern_same_globs (config : Config.t) (ps qs results : list string) :
  map (globPattern config) ps = map (globPattern config) qs ->
  eachPattern cwd globSync rules config ps results
  = eachPattern cwd globSync rules config qs results.
Proof.
  revert qs results. induction ps as [| p ps IH]; intros [| q qs] results Hmap;
    simpl in Hmap; try discriminate.
  - reflexivity.
  - injection Hmap as Hhead Htail. simpl. rewrite Hhead.
    destruct (ignoreFilter rules
                (globSync (globPattern config q) (Config.excludes config)));
      simpl; [apply IH; exact Htail | reflexivity].
Qed.

Lemma globPattern_slash (config : Config.t) (pattern : string) :
  JS.endsWith pattern "/" = false ->
  globPattern config (pattern ++ "/") = globPattern config pattern.
Proof.
  intros Hno. unfold globPattern.
  rewrite endsWith_appended, Hno. reflexivity.
Qed.

Lemma eachPattern_app (config : Config.t) (ps qs results : list string) :
  eachPattern cwd globSync rules config (ps ++ qs) results
  = (mid <- eachPattern cwd globSync rules config ps results ;;
     eachPattern cwd globSync rules config qs mid).
Proof.
  revert results. induction ps as [| p ps IH]; intros results; simpl.
  - reflexivity.
  - destruct (ignoreFilter rules
                (globSync (globPattern config p) (Config.excludes config)));
      simpl; [apply IH | reflexivity].
Qed.


End FindSitesFacts.

Lemma findSites_some
  (cwd : list string) (globSync : string -> option Patterns -> list string)
  (gitignore : Gitignore) (config : Config.t) (patterns : Patterns)
  (results : list string) :
  findSites cwd globSync gitignore config patterns = Some results ->
  exists rules,
    readGitignore gitignore = Some rules
    /\ eachPattern cwd globSync rules config (patternList patterns) []
       = Some results.
Proof.
  unfold findSites. intros Hrun.
  destruct (readGitignore gitignore) as [rules |]; [| discriminate].
  exists rules. split; [reflexivity | exact Hrun].
Qed.

Lemma readGitignore_not_ignored (gitignore : Gitignore)
  (rules : option (string -> option bool)) (base : string) :
  readGitignore gitignore = Some rules ->
  (forall ignores, gitignore = Rules ignores -> ignores base = Some false) ->
  forall ignores, rules = Some ignores -> ignores base = Some false.
Proof.
  intros Hread Hok ignores ->.
  destruct gitignore as [| | ignores']; simpl in Hread; try discriminate.
  injection Hread as <-. exact (Hok ignores' eq_refl).
Qed.


(** C3, as amended.  Every path returned by [findSites] is the path,
    relative to [baseDir], of a glob match that is not inside [outDir],
    nor inside [includesDir] or [layoutsDir] when these are set and not
    empty.  The test is made on the match as globbed (prefixed with
    [baseDir]), not on the returned path. *)
Theorem findSites_results_outside_boundaries
  (cwd : list string) (globSync : string -> option Patterns -> list string)
  (gitignore : Gitignore)
  (config : Config.t) (patterns : Patterns) (results : list string)
  (site : string) :
  findSites cwd globSync gitignore config patterns = Some results ->
  In site results ->
  exists pattern base,
    In pattern (patternList patterns)
    /\ In base (globSync (globPattern config pattern) (Config.excludes config))
    /\ site = Path.relative cwd (Config.baseDir config) base
    /\ JS.startsWith (Path.relative cwd (Config.outDir config) base) ".." = true
    /\ (forall d, Config.includesDir config = Some d -> d <> "" ->
          JS.startsWith (Path.relative cwd d base) ".." = true)
    /\ (forall d, Config.layoutsDir config = Some d -> d <> "" ->
          JS.startsWith (Path.relative cwd d base) ".." = true).
Proof.
  intros Hrun Hin.
  destruct (findSites_some _ _ _ _ _ _ Hrun) as [rules [_ Hloop]].
  destruct (eachPattern_results cwd globSync rules config _ _ _ Hloop site Hin)
    as [[] | [pattern [base [Hp [Hbase [Hkept Hsite]]]]]].
  apply skipped_false in Hkept. destruct Hkept as [Hout [Hinc Hlay]].
  unfold inside in Hout, Hinc, Hlay.
  exists pattern, base.
  split; [exact Hp |]. split; [exact Hbase |]. split; [exact Hsite |].
  split; [| split].
  - apply negb_false_iff. exact Hout.
  - intros d Hd Hne. apply negb_false_iff. exact (Hinc d Hd Hne).
  - intros d Hd Hne. apply negb_false_iff. exact (Hlay d Hd Hne).
Qed.

Lemma findSites_results_outside_boundaries_witness :
  findSites exampleCwd exampleGlobSync Absent exampleConfig (One "*")
  = Some ["blog"]
  /\ exists pattern base,
       In pattern ["*"]
       /\ In base (exampleGlobSync (globPattern exampleConfig pattern) None)
       /\ "blog" = Path.relative exampleCwd "sites/" base
       /\ JS.startsWith (Path.relative exampleCwd "sites/_out/" base) ".." = true
       /\ (forall d, Some "sites/_includes/" = Some d -> d <> "" ->
             JS.startsWith (Path.relative exampleCwd d base) ".." = true)
       /\ (forall d, None = Some d -> d <> "" ->
             JS.startsWith (Path.relative exampleCwd d base) ".." = true).
Proof.
  split; [reflexivity |].
  apply (findSites_results_outside_boundaries exampleCwd exampleGlobSync Absent
           exampleConfig (One "*") ["blog"] "blog").
  - reflexivity.
  - left. reflexivity.
Defined.

(** C3, as stated, fails.  With the default configuration and a project
    that has [sites/_out/] and [sites/_includes/], [findSites] returns
    ["_out"] and ["_includes"], which are inside [outDir] and
    [includesDir] in the specification's sense.  And with an [includesDir]
    set to the empty string, the match [sites/blog/] is inside it and
    ["blog"] is returned all the same. *)
Lemma findSites_returns_boundary_names :
  (findSites exampleCwd exampleGlobSync Absent DEFAULT_CONFIG (One "*")
   = Some ["_includes"; "_out"; "blog"]
   /\ JS.startsWith (Path.relative exampleCwd "_out/" "_out") ".." = false
   /\ JS.startsWith (Path.relative exampleCwd "_includes/" "_includes") ".."
      = false)
  /\ (findSites exampleCwd exampleGlobSync Absent emptyIncludesConfig (One "*")
      = Some ["_includes"; "blog"]
      /\ JS.startsWith (Path.relative exampleCwd "" "sites/blog/") ".." = false
      /\ JS.startsWith (Path.relative exampleCwd "" "blog") ".." = false).
Proof.
  repeat split; reflexivity.
Qed.



(** C6.  A pattern without a trailing separator gets one before it is
    joined with [baseDir] and expanded, so [findSites] gives the same
    result for [pattern] and for [pattern/], alone or inside a list. *)
Theorem findSites_trailing_separator
  (cwd : list string) (globSync : string -> option Patterns -> list string)
  (gitignore : Gitignore)
  (config : Config.t) (pattern : string) :
  JS.endsWith pattern "/" = false ->
  globPattern config pattern
  = Path.join (Config.baseDir config) (pattern ++ "/")
  /\ findSites cwd globSync gitignore config (One (pattern ++ "/"))
     = findSites cwd globSync gitignore config (One pattern)
  /\ forall before after,
       findSites cwd globSync gitignore config
         (Many (before ++ (pattern ++ "/") :: after))
       = findSites cwd globSync gitignore config
           (Many (before ++ pattern :: after)).
Proof.
  intros Hno. split; [| split].
  - unfold globPattern. rewrite Hno. reflexivity.
  - unfold findSites.
    destruct (readGitignore gitignore) as [rules |]; [| reflexivity].
    cbn [Throwing.bind]. apply eachPattern_same_globs. simpl.
    rewrite globPattern_slash by exact Hno. reflexivity.
  - intros before after. unfold findSites.
    destruct (readGitignore gitignore) as [rules |]; [| reflexivity].
    cbn [Throwing.bind]. apply eachPattern_same_globs.
    simpl. rewrite !map_app. simpl.
    rewrite globPattern_slash by exact Hno. reflexivity.
Qed.

Lemma findSites_trailing_separator_witness :
  JS.endsWith "*" "/" = false
  /\ findSites exampleCwd exampleGlobSync Absent exampleConfig (One "*/")
     = findSites exampleCwd exampleGlobSync Absent exampleConfig (One "*").
Proof.
  split; [reflexivity |].
  destruct (findSites_trailing_separator exampleCwd exampleGlobSync Absent
              exampleConfig "*" eq_refl) as [_ [Hone _]].
  exact Hone.
Defined.




(** * Further properties *)

(** ** findSites: order, closed form, exceptions *)

Lemma eachPattern_from_empty
  (cwd : list string) (globSync : string -> option Patterns -> list string)
  (rules : option (string -> option bool)) (config : Config.t)
  (patterns results : list string) :
  eachPattern cwd globSync rules config patterns results
  = option_map (app results)
      (eachPattern cwd globSync rules config patterns []).
Proof.
  revert results. induction patterns as [| p rest IH]; intros results; simpl.
  - rewrite app_nil_r. reflexivity.
  - destruct (ignoreFilter rules
                (globSync (globPattern config p) (Config.excludes config)))
      as [bases |]; simpl; [| reflexivity].
    rewrite (IH (pushBases cwd config bases results)).
    rewrite (IH (pushBases cwd config bases [])).
    rewrite !pushBases_spec. simpl.
    destruct (eachPattern cwd globSync rules config rest []) as [more |];
      simpl; [| reflexivity].
    rewrite app_assoc. reflexivity.
Qed.

(** X1.  The results follow the order of the patterns: for a list of
    patterns cut in two, [findSites] returns the results of the first
    part followed by those of the second, and throws when either part
    does.  Nothing is merged or deduplicated. *)
Theorem findSites_appends
  (cwd : list string) (globSync : string -> option Patterns -> list string)
  (gitignore : Gitignore) (config : Config.t)
  (ps qs : list string) :
  findSites cwd globSync gitignore config (Many (ps ++ qs))
  = match findSites cwd globSync gitignore config (Many ps),
          findSites cwd globSync gitignore config (Many qs) with
    | Some a, Some b => Some (a ++ b)%list
    | _, _ => None
    end.
Proof.
  unfold findSites.
  destruct (readGitignore gitignore) as [rules |]; [| reflexivity].
  simpl. rewrite eachPattern_app.
  destruct (eachPattern cwd globSync rules config ps []) as [mid |];
    simpl; [| reflexivity].
  rewrite eachPattern_from_empty.
  destruct (eachPattern cwd globSync rules config qs []); reflexivity.
Qed.

Lemma filter_all (xs : list string) : filter (fun _ => true) xs = xs.
Proof.
  induction xs as [| x xs IH]; simpl; [| rewrite IH]; reflexivity.
Qed.

Lemma ignoreFilter_total (rules : option (string -> bool)) (paths : list string) :
  ignoreFilter (option_map (fun ign p => Some (ign p)) rules) paths
  = Some (filter (fun base => match rules with
                              | Some ign => negb (ign base)
                              | None => true
                              end) paths).
Proof.
  destruct rules as [ign |]; simpl.
  - induction paths as [| x xs IH]; simpl; [reflexivity |].
    rewrite IH. simpl. destruct (negb (ign x)); reflexivity.
  - rewrite filter_all. reflexivity.
Qed.

Lemma eachPattern_total
  (cwd : list string) (globSync : string -> option Patterns -> list string)
  (rules : option (string -> bool)) (config : Config.t)
  (patterns results : list string) :
  eachPattern cwd globSync (option_map (fun ign p => Some (ign p)) rules)
    config patterns results
  = Some (results ++
          flat_map
            (fun pattern =>
               map (Path.relative cwd (Config.baseDir config))
                 (filter (fun base => negb (skipped cwd config base))
                    (filter (fun base => match rules with
                                         | Some ign => negb (ign base)
                                         | None => true
                                         end)
                       (globSync (globPattern config pattern)
                          (Config.excludes config)))))
            patterns)%list.
Proof.
  revert results. induction patterns as [| p rest IH]; intros results; simpl.
  - rewrite app_nil_r. reflexivity.
  - rewrite ignoreFilter_total. simpl. rewrite IH, pushBases_spec.
    rewrite <- app_assoc. reflexivity.
Qed.

(** X2.  When there is no [.gitignore], or when its rules accept every
    path they are asked about, [findSites] does not throw and returns,
    pattern by pattern and match by match in the order of [glob.sync],
    the [baseDir]-relative path of each match that is neither ignored
    nor inside [outDir], [includesDir] or [layoutsDir]. *)
Theorem findSites_closed_form
  (cwd : list string) (globSync : string -> option Patterns -> list string)
  (rules : option (string -> bool)) (config : Config.t) (patterns : Patterns) :
  findSites cwd globSync
    (match rules with
     | Some ign => Rules (fun p => Some (ign p))
     | None => Absent
     end)
    config patterns
  = Some (flat_map
            (fun pattern =>
               map (Path.relative cwd (Config.baseDir config))
                 (filter (fun base => negb (skipped cwd config base))
                    (filter (fun base => match rules with
                                         | Some ign => negb (ign base)
                                         | None => true
                                         end)
                       (globSync (globPattern config pattern)
                          (Config.excludes config)))))
            (patternList patterns)).
Proof.
  unfold findSites.
  destruct rules as [ign |]; cbn [readGitignore Throwing.bind].
  - exact (eachPattern_total cwd globSync (Some ign) config _ []).
  - exact (eachPattern_total cwd globSync None config _ []).
Qed.

Lemma filter_throws (keep : string -> option bool) (xs : list string) (x : string) :
  In x xs -> keep x = None -> Throwing.filter keep xs = None.
Proof.
  induction xs as [| x' xs IH]; intros Hin Hthrow; simpl.
  - destruct Hin.
  - destruct Hin as [-> | Hin].
    + rewrite Hthrow. reflexivity.
    + destruct (keep x'); simpl; [| reflexivity].
      rewrite (IH Hin Hthrow). reflexivity.
Qed.

Lemma eachPattern_throws
  (cwd : list string) (globSync : string -> option Patterns -> list string)
  (ignores : string -> option bool) (config : Config.t)
  (patterns results : list string) (pattern base : string) :
  In pattern patterns ->
  In base (globSync (globPattern config pattern) (Config.excludes config)) ->
  ignores base = None ->
  eachPattern cwd globSync (Some ignores) config patterns results = None.
Proof.
  revert results.
  induction patterns as [| p rest IH]; intros results Hp Hbase Hthrow;
    cbn [eachPattern].
  - destruct Hp.
  - destruct (ignoreFilter (Some ignores)
                (globSync (globPattern config p) (Config.excludes config)))
      as [bases |] eqn:Hbases; simpl; [| reflexivity].
    destruct Hp as [-> | Hp].
    + unfold ignoreFilter in Hbases.
      rewrite (filter_throws _ _ base Hbase) in Hbases; [discriminate |].
      rewrite Hthrow. reflexivity.
    + exact (IH _ Hp Hbase Hthrow).
Qed.

(** X3.  An exception of the ignore test is not caught: if the rules of
    [.gitignore] throw on one match of one pattern, [findSites] throws
    and returns no result at all, whatever the other patterns matched. *)
Theorem findSites_throws_with_ignore
  (cwd : list string) (globSync : string -> option Patterns -> list string)
  (ignores : string -> option bool) (config : Config.t) (patterns : Patterns)
  (pattern base : string) :
  In pattern (patternList patterns) ->
  In base (globSync (globPattern config pattern) (Config.excludes config)) ->
  ignores base = None ->
  findSites cwd globSync (Rules ignores) config patterns = None.
Proof.
  intros Hp Hbase Hthrow. unfold findSites.
  cbn [readGitignore Throwing.bind].
  exact (eachPattern_throws cwd globSync ignores config _ [] pattern base
           Hp Hbase Hthrow).
Qed.

Lemma findSites_throws_with_ignore_witness :
  findSites exampleCwd exampleGlobSync rejectingIgnore exampleConfig
    (Many ["nothing"; "*"])
  = None.
Proof.
  apply (findSites_throws_with_ignore exampleCwd exampleGlobSync
           (fun _ => None) exampleConfig (Many ["nothing"; "*"])
           "*" "sites/blog/").
  - right. left. reflexivity.
  - right. right. left. reflexivity.
  - reflexivity.
Defined.

Lemma filter_kept (keep : string -> option bool) (xs ys : list string) :
  Throwing.filter keep xs = Some ys ->
  forall y, In y ys -> In y xs /\ keep y = Some true.
Proof.
  revert ys. induction xs as [| x xs IH]; intros ys Hf y Hy; simpl in Hf.
  - injection Hf as <-. destruct Hy.
  - destruct (keep x) as [b |] eqn:Hb; [| discriminate]. simpl in Hf.
    destruct (Throwing.filter keep xs) as [rest |]; [| discriminate].
    simpl in Hf. injection Hf as <-.
    destruct b.
    + destruct Hy as [<- | Hy].
      * split; [left; reflexivity | exact Hb].
      * destruct (IH rest eq_refl y Hy) as [Hin Hk].
        split; [right; exact Hin | exact Hk].
    + destruct (IH rest eq_refl y Hy) as [Hin Hk].
      split; [right; exact Hin | exact Hk].
Qed.

Lemma eachPattern_results_kept
  (cwd : list string) (globSync : string -> option Patterns -> list string)
  (ignores : string -> option bool) (config : Config.t)
  (patterns results out : list string) :
  eachPattern cwd globSync (Some ignores) config patterns results = Some out ->
  forall site, In site out ->
    In site results \/
    exists pattern base,
      In pattern patterns
      /\ In base (globSync (globPattern config pattern) (Config.excludes config))
      /\ ignores base = Some false
      /\ site = Path.relative cwd (Config.baseDir config) base.
Proof.
  revert results out.
  induction patterns as [| pattern rest IH]; intros results out Hrun site Hin;
    cbn [eachPattern] in Hrun.
  - injection Hrun as <-. left. exact Hin.
  - destruct (ignoreFilter (Some ignores)
                (globSync (globPattern config pattern) (Config.excludes config)))
      as [bases |] eqn:Hbases; [| discriminate].
    simpl in Hrun.
    destruct (IH _ _ Hrun site Hin) as [Hold | [p [base [Hp Hrest]]]].
    + rewrite pushBases_spec in Hold. apply in_app_or in Hold.
      destruct Hold as [Hold | Hnew]; [left; exact Hold |].
      right. apply in_map_iff in Hnew. destruct Hnew as [base [Hrel Hkept]].
      apply filter_In in Hkept. destruct Hkept as [Hbase _].
      unfold ignoreFilter in Hbases.
      destruct (filter_kept _ _ _ Hbases base Hbase) as [Hglob Hk].
      exists pattern, base.
      split; [left; reflexivity |]. split; [exact Hglob |].
      split; [| symmetry; exact Hrel].
      destruct (ignores base) as [[|] |]; simpl in Hk;
        [discriminate | reflexivity | discriminate].
    + right. exists p, base. destruct Hrest as [H1 [H2 H3]].
      split; [right; exact Hp |]. split; [exact H1 |].
      split; [exact H2 | exact H3].
Qed.

(** X4.  With a [.gitignore], every returned path is the path of a match
    that its rules were asked about and did not ignore. *)
Theorem findSites_results_not_ignored
  (cwd : list string) (globSync : string -> option Patterns -> list string)
  (ignores : string -> option bool) (config : Config.t) (patterns : Patterns)
  (results : list string) (site : string) :
  findSites cwd globSync (Rules ignores) config patterns = Some results ->
  In site results ->
  exists pattern base,
    In pattern (patternList patterns)
    /\ In base (globSync (globPattern config pattern) (Config.excludes config))
    /\ ignores base = Some false
    /\ site = Path.relative cwd (Config.baseDir config) base.
Proof.
  unfold findSites. intros Hrun Hin.
  destruct (eachPattern_results_kept cwd globSync ignores config _ _ _ Hrun
              site Hin) as [[] | Hex].
  exact Hex.
Qed.

Lemma findSites_results_not_ignored_witness :
  findSites exampleCwd exampleGlobSync exampleIgnore DEFAULT_CONFIG (One "*")
  = Some ["_out"; "blog"]
  /\ exists pattern base,
       In pattern ["*"]
       /\ In base (exampleGlobSync (globPattern DEFAULT_CONFIG pattern) None)
       /\ (base =? "sites/_includes/") = false
       /\ "blog" = Path.relative exampleCwd "sites/" base.
Proof.
  split; [reflexivity |].
  destruct (findSites_results_not_ignored exampleCwd exampleGlobSync
              (fun p => Some (p =? "sites/_includes/")) DEFAULT_CONFIG (One "*")
              ["_out"; "blog"] "blog" eq_refl (or_intror (or_introl eq_refl)))
    as [pattern [base [Hp [Hbase [Hign Hsite]]]]].
  exists pattern, base.
  split; [exact Hp |]. split; [exact Hbase |].
  split; [injection Hign as Hign; exact Hign | exact Hsite].
Defined.

(** X5.  Nothing else is dropped: a match that the ignore rules do not
    ignore and that is outside [outDir], and outside [includesDir] and
    [layoutsDir] when these are set and not empty, has its
    [baseDir]-relative path in the results. *)
Theorem findSites_returns_every_kept_match
  (cwd : list string) (globSync : string -> option Patterns -> list string)
  (gitignore : Gitignore)
  (config : Config.t) (patterns : Patterns) (results : list string)
  (pattern base : string) :
  findSites cwd globSync gitignore config patterns = Some results ->
  In pattern (patternList patterns) ->
  In base (globSync (globPattern config pattern) (Config.excludes config)) ->
  (forall ignores, gitignore = Rules ignores -> ignores base = Some false) ->
  JS.startsWith (Path.relative cwd (Config.outDir config) base) ".." = true ->
  (forall d, Config.includesDir config = Some d -> d <> "" ->
     JS.startsWith (Path.relative cwd d base) ".." = true) ->
  (forall d, Config.layoutsDir config = Some d -> d <> "" ->
     JS.startsWith (Path.relative cwd d base) ".." = true) ->
  In (Path.relative cwd (Config.baseDir config) base) results.
Proof.
  intros Hrun Hp Hbase Hok Hout Hinc Hlay.
  destruct (findSites_some _ _ _ _ _ _ Hrun) as [rules [Hread Hloop]].
  apply (eachPattern_pushes cwd globSync rules config _ _ _ pattern base
           Hloop Hp Hbase (readGitignore_not_ignored _ _ _ Hread Hok)).
  apply skipped_false. unfold inside. split; [| split].
  - rewrite Hout. reflexivity.
  - intros d Hd Hne. rewrite (Hinc d Hd Hne). reflexivity.
  - intros d Hd Hne. rewrite (Hlay d Hd Hne). reflexivity.
Qed.

Lemma findSites_returns_every_kept_match_witness :
  findSites exampleCwd exampleGlobSync exampleIgnore exampleConfig
    (Many ["nothing"; "*"])
  = Some ["blog"]
  /\ In (Path.relative exampleCwd "sites/" "sites/blog/") ["blog"].
Proof.
  split; [reflexivity |].
  apply (findSites_returns_every_kept_match exampleCwd exampleGlobSync
           exampleIgnore exampleConfig (Many ["nothing"; "*"]) ["blog"]
           "*" "sites/blog/").
  - reflexivity.
  - right. left. reflexivity.
  - right. right. left. reflexivity.
  - intros ignores H. injection H as <-. reflexivity.
  - reflexivity.
  - intros d H _. injection H as <-. reflexivity.
  - intros d H. discriminate H.
Defined.

(** ** findSites: what glob is asked, and the shape of the results *)

Lemma endsWith_app (s t suf : string) :
  JS.endsWith t suf = true -> JS.endsWith (s ++ t) suf = true.
Proof.
  intros Ht. induction s as [| c s IH]; simpl.
  - exact Ht.
  - rewrite IH. apply orb_true_r.
Qed.

Lemma normalize_trailing (p : string) :
  JS.endsWith p "/" = true -> JS.endsWith (Path.normalize p) "/" = true.
Proof.
  intros Hp. unfold Path.normalize.
  destruct (p =? "") eqn:Hempty.
  - apply String.eqb_eq in Hempty. subst p. discriminate Hp.
  - rewrite Hp.
    destruct (String.concat "/"
                (Path.normalizeString (negb (Path.isAbsolute p))
                   (Path.segments p)) =? "").
    + destruct (Path.isAbsolute p); reflexivity.
    + apply endsWith_app. apply endsWith_appended.
Qed.

Lemma join_trailing (a b : string) :
  JS.endsWith b "/" = true -> JS.endsWith (Path.join a b) "/" = true.
Proof.
  intros Hb. unfold Path.join.
  destruct (a =? ""); [exact (normalize_trailing b Hb) |].
  destruct (b =? "") eqn:Hempty.
  - apply String.eqb_eq in Hempty. subst b. discriminate Hb.
  - apply normalize_trailing. apply endsWith_app. apply endsWith_app.
    exact Hb.
Qed.

(** X6.  Whatever [baseDir] and the pattern are, the string handed to
    [glob.sync] ends with a separator, so only directories are asked
    for. *)
Theorem globPattern_ends_with_separator (config : Config.t) (pattern : string) :
  JS.endsWith (globPattern config pattern) "/" = true.
Proof.
  unfold globPattern. apply join_trailing.
  destruct (JS.endsWith pattern "/") eqn:Hp.
  - exact Hp.
  - apply endsWith_appended.
Qed.

Lemma stripCommon_below (dir rest : list string) :
  Path.stripCommon dir (dir ++ rest) = ([], rest).
Proof.
  induction dir as [| d dir IH]; simpl.
  - destruct rest; reflexivity.
  - rewrite String.eqb_refl. exact IH.
Qed.

Lemma relative_below (cwd : list string) (dir base : string) (rest : list string) :
  descends dir = true ->
  descends base = true ->
  steps base = (steps dir ++ rest)%list ->
  Path.relative cwd dir base = String.concat "/" rest.
Proof.
  intros Hdir Hbase Hsteps. unfold Path.relative.
  rewrite (resolve_descends cwd dir Hdir), (resolve_descends cwd base Hbase).
  rewrite Hsteps, stripCommon_app, stripCommon_below. reflexivity.
Qed.

(** X7.  A kept match below [baseDir] is returned as its segments after
    those of [baseDir], joined by single separators: without the
    [baseDir] prefix, without a trailing separator and independently of
    the working directory. *)
Theorem findSites_returns_segments_below_baseDir
  (cwd : list string) (globSync : string -> option Patterns -> list string)
  (gitignore : Gitignore)
  (config : Config.t) (patterns : Patterns) (results : list string)
  (pattern base : string) (rest : list string) :
  findSites cwd globSync gitignore config patterns = Some results ->
  In pattern (patternList patterns) ->
  In base (globSync (globPattern config pattern) (Config.excludes config)) ->
  (forall ignores, gitignore = Rules ignores -> ignores base = Some false) ->
  skipped cwd config base = false ->
  descends (Config.baseDir config) = true ->
  descends base = true ->
  steps base = (steps (Config.baseDir config) ++ rest)%list ->
  In (String.concat "/" rest) results.
Proof.
  intros Hrun Hp Hbase Hok Hkept Hdir Hdown Hsteps.
  destruct (findSites_some _ _ _ _ _ _ Hrun) as [rules [Hread Hloop]].
  rewrite <- (relative_below cwd (Config.baseDir config) base rest
                Hdir Hdown Hsteps).
  exact (eachPattern_pushes cwd globSync rules config _ _ _ pattern base
           Hloop Hp Hbase (readGitignore_not_ignored _ _ _ Hread Hok) Hkept).
Qed.

Lemma findSites_returns_segments_below_baseDir_witness :
  findSites exampleCwd exampleGlobSync Absent exampleConfig (One "*")
  = Some ["blog"]
  /\ In (String.concat "/" ["blog"]) ["blog"].
Proof.
  split; [reflexivity |].
  apply (findSites_returns_segments_below_baseDir exampleCwd exampleGlobSync
           Absent exampleConfig (One "*") ["blog"] "*" "sites/blog/" ["blog"]).
  - reflexivity.
  - left. reflexivity.
  - right. right. left. reflexivity.
  - intros ignores H. discriminate H.
  - reflexivity.
  - reflexivity.
  - reflexivity.
  - reflexivity.
Defined.

(** ** matchSiteConfig: where a result comes from *)

Lemma matchSites_some_inv (minimatch : string -> string -> bool)
  (sites : list SiteSpec) (site : string) (siteConfig : SiteConfig.t) :
  matchSites minimatch sites site = Some siteConfig ->
  exists before glob after,
    sites = (before ++ Pair glob siteConfig :: after)%list
    /\ (forall s, In s before -> minimatch site (globOf s) = false)
    /\ minimatch site glob = true.
Proof.
  induction sites as [| siteSpec rest IH]; intros Hres; simpl in Hres.
  - discriminate.
  - destruct (minimatch site (globOf siteSpec)) eqn:Hm.
    + destruct siteSpec as [glob | glob c]; simpl in Hres; [discriminate |].
      injection Hres as ->.
      exists [], glob, rest. split; [reflexivity |].
      split; [intros s [] | exact Hm].
    + destruct (IH Hres) as [before [glob [after [Hsplit [Hno Hyes]]]]].
      exists (siteSpec :: before), glob, after.
      split; [rewrite Hsplit; reflexivity |].
      split; [| exact Hyes].
      intros s [<- | Hs]; [exact Hm | exact (Hno s Hs)].
Qed.

Lemma matchSites_none_inv (minimatch : string -> string -> bool)
  (sites : list SiteSpec) (site : string) :
  matchSites minimatch sites site = None ->
  (forall s, In s sites -> minimatch site (globOf s) = false)
  \/ exists before glob after,
       sites = (before ++ Bare glob :: after)%list
       /\ (forall s, In s before -> minimatch site (globOf s) = false)
       /\ minimatch site glob = true.
Proof.
  induction sites as [| siteSpec rest IH]; intros Hres; simpl in Hres.
  - left. intros s [].
  - destruct (minimatch site (globOf siteSpec)) eqn:Hm.
    + destruct siteSpec as [glob | glob c]; simpl in Hres; [| discriminate].
      right. exists [], glob, rest. split; [reflexivity |].
      split; [intros s [] | exact Hm].
    + destruct (IH Hres) as [Hnone | [before [glob [after [Hsplit [Hno Hyes]]]]]].
      * left. intros s [<- | Hs]; [exact Hm | exact (Hnone s Hs)].
      * right. exists (siteSpec :: before), glob, after.
        split; [rewrite Hsplit; reflexivity |].
        split; [| exact Hyes].
        intros s [<- | Hs]; [exact Hm | exact (Hno s Hs)].
Qed.

(** X8.  [matchSiteConfig] returns an object exactly when the first
    SiteSpec whose glob matches the site is a pair, and the object is
    that pair's second component: it never builds, merges or copies an
    override. *)
Theorem matchSiteConfig_override_iff
  (minimatch : string -> string -> bool) (config : Config.t) (site : string)
  (siteConfig : SiteConfig.t) :
  matchSiteConfig minimatch config site = Some siteConfig
  <-> exists before glob after,
        Config.sites config = (before ++ Pair glob siteConfig :: after)%list
        /\ (forall s, In s before -> minimatch site (globOf s) = false)
        /\ minimatch site glob = true.
Proof.
  unfold matchSiteConfig. split.
  - apply matchSites_some_inv.
  - intros [before [glob [after [Hsplit [Hno Hyes]]]]].
    rewrite Hsplit, matchSites_skip by exact Hno.
    simpl. rewrite Hyes. reflexivity.
Qed.

(** X9.  [matchSiteConfig] returns [undefined] exactly in two cases: no
    SiteSpec matches the site (in particular when [sites] is empty), or
    the first one that matches is a bare string. *)
Theorem matchSiteConfig_undefined_iff
  (minimatch : string -> string -> bool) (config : Config.t) (site : string) :
  matchSiteConfig minimatch config site = None
  <-> (forall s, In s (Config.sites config) -> minimatch site (globOf s) = false)
      \/ exists before glob after,
           Config.sites config = (before ++ Bare glob :: after)%list
           /\ (forall s, In s before -> minimatch site (globOf s) = false)
           /\ minimatch site glob = true.
Proof.
  unfold matchSiteConfig. split.
  - apply matchSites_none_inv.
  - intros [Hnone | [before [glob [after [Hsplit [Hno Hyes]]]]]].
    + rewrite <- (app_nil_r (Config.sites config)).
      rewrite matchSites_skip by exact Hnone. reflexivity.
    + rewrite Hsplit, matchSites_skip by exact Hno.
      simpl. rewrite Hyes. reflexivity.
Qed.

(** X10.  SiteSpecs that do not match the site have no influence:
    putting any number of them in front of a list of SiteSpecs leaves
    the result for that site unchanged. *)
Theorem matchSiteConfig_ignores_non_matching
  (minimatch : string -> string -> bool) (config config' : Config.t)
  (before : list SiteSpec) (site : string) :
  Config.sites config' = (before ++ Config.sites config)%list ->
  (forall s, In s before -> minimatch site (globOf s) = false) ->
  matchSiteConfig minimatch config' site = matchSiteConfig minimatch config site.
Proof.
  intros Hsites Hno. unfold matchSiteConfig.
  rewrite Hsites. apply matchSites_skip. exact Hno.
Qed.

Lemma matchSiteConfig_ignores_non_matching_witness :
  matchSiteConfig exampleMinimatch
    (withSites [Bare "blog/*"; Pair "other" laterConfig; Pair "docs" docsConfig])
    "docs"
  = matchSiteConfig exampleMinimatch (withSites [Pair "docs" docsConfig]) "docs".
Proof.
  apply (matchSiteConfig_ignores_non_matching exampleMinimatch
           (withSites [Pair "docs" docsConfig])
           (withSites [Bare "blog/*"; Pair "other" laterConfig;
                       Pair "docs" docsConfig])
           [Bare "blog/*"; Pair "other" laterConfig] "docs").
  - reflexivity.
  - intros s [<- | [<- | []]]; reflexivity.
Defined.

Lemma matchSitesW_skip (W : Type)
  (minimatchW : string -> string -> W -> bool * W)
  (minimatch : string -> string -> bool)
  (before rest : list SiteSpec) (site : string) (w : W) :
  (forall site glob w, fst (minimatchW site glob w) = minimatch site glob) ->
  (forall s, In s before -> minimatch site (globOf s) = false) ->
  matchSitesW W minimatchW (before ++ rest) site w
  = matchSitesW W minimatchW rest site
      (snd (matchSitesW W minimatchW before site w)).
Proof.
  intros Hanswers. revert w.
  induction before as [| s before IH]; intros w Hno; simpl.
  - reflexivity.
  - pose proof (Hanswers site (globOf s) w) as Hs.
    rewrite (Hno s (or_introl eq_refl)) in Hs.
    destruct (minimatchW site (globOf s) w) as [matched w'].
    simpl in Hs. subst matched.
    apply IH. intros s' Hin. apply Hno. right. exact Hin.
Qed.

(** X11.  The loop stops at the first match: whatever the glob test does
    to the outside, the outcome and the state left behind are those of
    testing the SiteSpecs up to the first matching one, and the
    SiteSpecs after it are never tested. *)
Theorem matchSiteConfig_stops_at_first_match
  (W : Type) (minimatchW : string -> string -> W -> bool * W)
  (minimatch : string -> string -> bool)
  (config config' : Config.t)
  (before : list SiteSpec) (first : SiteSpec) (after : list SiteSpec)
  (site : string) (w : W) :
  (forall site glob w, fst (minimatchW site glob w) = minimatch site glob) ->
  Config.sites config = (before ++ first :: after)%list ->
  Config.sites config' = (before ++ [first])%list ->
  (forall s, In s before -> minimatch site (globOf s) = false) ->
  minimatch site (globOf first) = true ->
  matchSiteConfigW W minimatchW config site w
  = matchSiteConfigW W minimatchW config' site w.
Proof.
  intros Hanswers Hsites Hsites' Hno Hyes. unfold matchSiteConfigW.
  rewrite Hsites, Hsites'.
  rewrite !(matchSitesW_skip W minimatchW minimatch before _ site w Hanswers Hno).
  simpl.
  pose proof (Hanswers site (globOf first)
                (snd (matchSitesW W minimatchW before site w))) as Hf.
  rewrite Hyes in Hf.
  destruct (minimatchW site (globOf first)
              (snd (matchSitesW W minimatchW before site w))) as [matched w'].
  simpl in Hf. subst matched. reflexivity.
Qed.

Lemma matchSiteConfig_stops_at_first_match_witness :
  matchSiteConfigW nat countingMinimatch
    (withSites [Bare "blog/*"; Pair "docs" docsConfig;
                Pair "d*" laterConfig; Bare "*"]) "docs" 0
  = (Some docsConfig, 2).
Proof.
  rewrite (matchSiteConfig_stops_at_first_match nat countingMinimatch
             exampleMinimatch
             (withSites [Bare "blog/*"; Pair "docs" docsConfig;
                         Pair "d*" laterConfig; Bare "*"])
             (withSites [Bare "blog/*"; Pair "docs" docsConfig])
             [Bare "blog/*"] (Pair "docs" docsConfig)
             [Pair "d*" laterConfig; Bare "*"] "docs" 0).
  - reflexivity.
  - intros site glob w. reflexivity.
  - reflexivity.
  - reflexivity.
  - intros s [<- | []]. reflexivity.
  - reflexivity.
Defined.

(** ** runEleventy: which calls are made, and when *)

Lemma configure_only (L : Type) (options : RunOptions.t) (e : Event L) :
  In e (configure L options) ->
  match e with
  | NewEleventy _ _ _ _ | SetPathPrefix _ | SetDryRun _
  | SetIncrementalBuild _ | SetFormats _ | RequireConfig _ => True
  | _ => False
  end.
Proof.
  unfold configure. intros Hin. apply in_app_or in Hin.
  destruct Hin as [Hin | Hin].
  - simpl in Hin.
    destruct Hin as [<- | [<- | [<- | [<- | [<- | []]]]]]; exact I.
  - destruct (RunOptions.configPath options) as [p |]; [| destruct Hin].
    destruct (negb (JS.truthy (RunOptions.ignoreGlobal options)));
      [| destruct Hin].
    destruct Hin as [<- | []]. exact I.
Qed.

Lemma configure_requires (L : Type) (options : RunOptions.t) (p : string) :
  In (@RequireConfig L p) (configure L options)
  <-> JS.truthy (RunOptions.ignoreGlobal options) = false
      /\ RunOptions.configPath options = Some p.
Proof.
  unfold configure. split.
  - intros Hin. apply in_app_or in Hin. destruct Hin as [Hin | Hin].
    + simpl in Hin.
      destruct Hin as [H | [H | [H | [H | [H | []]]]]]; discriminate H.
    + destruct (RunOptions.configPath options) as [q |]; [| destruct Hin].
      destruct (JS.truthy (RunOptions.ignoreGlobal options));
        simpl in Hin; [destruct Hin |].
      destruct Hin as [H | []]. injection H as ->. split; reflexivity.
  - intros [Hglobal Hpath]. rewrite Hglobal, Hpath.
    apply in_or_app. right. left. reflexivity.
Qed.

Lemma afterInit_only (L D : Type) (consoleLogger : string -> Logger.Value L D)
  (eleventy : Generator) (options : RunOptions.t) (e : Event L) :
  In e (afterInit L D consoleLogger eleventy options) ->
  match e with
  | Watch | Serve _ | Write | Logged _ => True
  | _ => False
  end.
Proof.
  unfold afterInit, afterWatch.
  destruct (JS.truthy (RunOptions.serve options)
            || JS.truthy (RunOptions.watch options)).
  - intros [<- | Hin]; [exact I |].
    destruct (JS.truthy (RunOptions.serve options) && watch_resolves eleventy).
    + destruct Hin as [<- | []]. exact I.
    + apply in_map_iff in Hin. destruct Hin as [x [<- _]]. exact I.
  - intros [<- | []]. exact I.
Qed.

Lemma runEleventy_in (L D : Type) (consoleLogger : string -> Logger.Value L D)
  (eleventy : Generator) (options : RunOptions.t) (e : Event L) :
  In e (runEleventy L D consoleLogger eleventy options)
  <-> In e (configure L options)
      \/ e = Init
      \/ (init_resolves eleventy = true
          /\ In e (afterInit L D consoleLogger eleventy options)).
Proof.
  unfold runEleventy. split.
  - intros Hin. apply in_app_or in Hin.
    destruct Hin as [Hin | [<- | Hin]]; [left; exact Hin | right; left; reflexivity |].
    right. right. destruct (init_resolves eleventy); [| destruct Hin].
    split; [reflexivity | exact Hin].
  - intros [Hin | [-> | [Hinit Hin]]]; apply in_or_app.
    + left. exact Hin.
    + right. left. reflexivity.
    + right. right. rewrite Hinit. exact Hin.
Qed.

(** X12.  [eleventy.serve] is called in exactly one situation:
    initialisation completed, serve was requested and the watch setup
    succeeded; it is then called with [options.port]. *)
Theorem runEleventy_serves_iff
  (L D : Type) (consoleLogger : string -> Logger.Value L D)
  (eleventy : Generator) (options : RunOptions.t) (port : option N) :
  In (Serve port) (runEleventy L D consoleLogger eleventy options)
  <-> init_resolves eleventy = true
      /\ JS.truthy (RunOptions.serve options) = true
      /\ watch_resolves eleventy = true
      /\ port = RunOptions.port options.
Proof.
  rewrite runEleventy_in. unfold afterInit, afterWatch. split.
  - intros [Hin | [H | [Hinit Hin]]].
    + destruct (configure_only L options _ Hin).
    + discriminate H.
    + split; [exact Hinit |].
      destruct (JS.truthy (RunOptions.serve options)); simpl in Hin.
      * destruct Hin as [H | Hin]; [discriminate H |].
        destruct (watch_resolves eleventy).
        -- destruct Hin as [H | []]. injection H as <-.
           repeat split; reflexivity.
        -- apply in_map_iff in Hin. destruct Hin as [x [H _]]. discriminate H.
      * destruct (JS.truthy (RunOptions.watch options)).
        -- destruct Hin as [H | Hin]; [discriminate H |].
           apply in_map_iff in Hin. destruct Hin as [x [H _]]. discriminate H.
        -- destruct Hin as [H | []]. discriminate H.
  - intros [Hinit [Hserve [Hwatch ->]]]. right. right.
    split; [exact Hinit |]. rewrite Hserve, Hwatch. simpl.
    right. left. reflexivity.
Qed.

(** X13.  The one-shot [eleventy.write] is called exactly when
    initialisation completed and neither serve nor watch was requested;
    and a run that writes never starts [watch]. *)
Theorem runEleventy_writes_iff
  (L D : Type) (consoleLogger : string -> Logger.Value L D)
  (eleventy : Generator) (options : RunOptions.t) :
  (In Write (runEleventy L D consoleLogger eleventy options)
   <-> init_resolves eleventy = true
       /\ JS.truthy (RunOptions.serve options) = false
       /\ JS.truthy (RunOptions.watch options) = false)
  /\ (In Write (runEleventy L D consoleLogger eleventy options) ->
      ~ In Watch (runEleventy L D consoleLogger eleventy options)).
Proof.
  assert (Hiff :
    In Write (runEleventy L D consoleLogger eleventy options)
    <-> init_resolves eleventy = true
        /\ JS.truthy (RunOptions.serve options) = false
        /\ JS.truthy (RunOptions.watch options) = false).
  { rewrite runEleventy_in. unfold afterInit, afterWatch. split.
    - intros [Hin | [H | [Hinit Hin]]].
      + destruct (configure_only L options _ Hin).
      + discriminate H.
      + split; [exact Hinit |].
        destruct (JS.truthy (RunOptions.serve options)); simpl in Hin.
        * destruct Hin as [H | Hin]; [discriminate H |].
          destruct (watch_resolves eleventy).
          -- destruct Hin as [H | []]. discriminate H.
          -- apply in_map_iff in Hin. destruct Hin as [x [H _]]. discriminate H.
        * destruct (JS.truthy (RunOptions.watch options)).
          -- destruct Hin as [H | Hin]; [discriminate H |].
             apply in_map_iff in Hin. destruct Hin as [x [H _]]. discriminate H.
          -- split; reflexivity.
    - intros [Hinit [Hserve Hwatch]]. right. right.
      split; [exact Hinit |]. rewrite Hserve, Hwatch. left. reflexivity. }
  split; [exact Hiff |].
  intros Hwrite Hwatched. apply Hiff in Hwrite.
  destruct Hwrite as [_ [Hserve Hwatch]].
  apply runEleventy_in in Hwatched.
  destruct Hwatched as [Hin | [H | [_ Hin]]].
  - destruct (configure_only L options _ Hin).
  - discriminate H.
  - unfold afterInit in Hin. rewrite Hserve, Hwatch in Hin.
    destruct Hin as [H | []]. discriminate H.
Qed.

(** X14.  The site's configuration module is loaded and applied to the
    generator's configuration exactly when [ignoreGlobal] is not set and
    a [configPath] is given, and it is the module at that path; with
    [ignoreGlobal] set no module is loaded by [runEleventy]. *)
Theorem runEleventy_requires_iff
  (L D : Type) (consoleLogger : string -> Logger.Value L D)
  (eleventy : Generator) (options : RunOptions.t) (p : string) :
  In (RequireConfig p) (runEleventy L D consoleLogger eleventy options)
  <-> JS.truthy (RunOptions.ignoreGlobal options) = false
      /\ RunOptions.configPath options = Some p.
Proof.
  rewrite runEleventy_in, configure_requires. split.
  - intros [H | [H | [_ Hin]]].
    + exact H.
    + discriminate H.
    + destruct (afterInit_only L D consoleLogger eleventy options _ Hin).
  - intros H. left. exact H.
Qed.

(** X15.  When serve is not requested, the outcome of the watch setup is
    not observable: the calls made and the notice logged are the same
    whether [eleventy.watch] resolved or rejected. *)
Theorem runEleventy_watch_outcome_unseen
  (L D : Type) (consoleLogger : string -> Logger.Value L D)
  (eleventy eleventy' : Generator) (options : RunOptions.t) :
  JS.truthy (RunOptions.serve options) = false ->
  init_resolves eleventy = init_resolves eleventy' ->
  runEleventy L D consoleLogger eleventy options
  = runEleventy L D consoleLogger eleventy' options.
Proof.
  intros Hserve Hinit. unfold runEleventy, afterInit, afterWatch.
  rewrite Hinit, Hserve. reflexivity.
Qed.

Lemma runEleventy_watch_outcome_unseen_witness :
  runEleventy (string * string) unit exampleConsole
    {| init_resolves := true; watch_resolves := true |}
    (exampleOptions None (Some true) None None)
  = runEleventy (string * string) unit exampleConsole
      {| init_resolves := true; watch_resolves := false |}
      (exampleOptions None (Some true) None None).
Proof.
  apply (runEleventy_watch_outcome_unseen (string * string) unit exampleConsole
           {| init_resolves := true; watch_resolves := true |}
           {| init_resolves := true; watch_resolves := false |}
           (exampleOptions None (Some true) None None)).
  - reflexivity.
  - reflexivity.
Defined.

(** X16.  When initialisation fails, nothing follows [eleventy.init]: no
    watch, no serve, no write and no log line, whatever was requested. *)
Theorem runEleventy_init_rejected
  (L D : Type) (consoleLogger : string -> Logger.Value L D)
  (eleventy : Generator) (options : RunOptions.t) :
  init_resolves eleventy = false ->
  runEleventy L D consoleLogger eleventy options
  = (configure L options ++ [Init])%list
  /\ forall e, In e (runEleventy L D consoleLogger eleventy options) ->
       match e with
       | Watch | Serve _ | Write | Logged _ => False
       | _ => True
       end.
Proof.
  intros Hinit. split.
  - unfold runEleventy. rewrite Hinit. reflexivity.
  - intros e Hin. apply runEleventy_in in Hin.
    destruct Hin as [Hin | [-> | [Htrue _]]].
    + pose proof (configure_only L options e Hin) as Hshape.
      destruct e; try exact I; destruct Hshape.
    + exact I.
    + rewrite Hinit in Htrue. discriminate Htrue.
Qed.

Lemma runEleventy_init_rejected_witness :
  runEleventy (string * string) unit exampleConsole
    {| init_resolves := false; watch_resolves := true |}
    (exampleOptions (Some true) (Some true) (Some true) None)
  = [ NewEleventy "sites/blog" "_out/blog" None (Some "sites/blog/.eleventy.js");
      SetPathPrefix None; SetDryRun None; SetIncrementalBuild None;
      SetFormats None; Init ].
Proof.
  destruct (runEleventy_init_rejected (string * string) unit exampleConsole
              {| init_resolves := false; watch_resolves := true |}
              (exampleOptions (Some true) (Some true) (Some true) None)
              eq_refl) as [Htrace _].
  exact Htrace.
Defined.

(** X17.  The notice ["[multisite] Started watching site ..."] is sent to
    the wrapped logger's [forceLog] exactly when initialisation
    completed, serve or watch was requested, and serve is not started;
    nothing else is ever logged by [runEleventy]. *)
Theorem runEleventy_logs_iff
  (L D : Type) (consoleLogger : string -> Logger.Value L D)
  (eleventy : Generator) (options : RunOptions.t) (line : L) :
  In (Logged line) (runEleventy L D consoleLogger eleventy options)
  <-> init_resolves eleventy = true
      /\ JS.truthy (RunOptions.serve options)
         || JS.truthy (RunOptions.watch options) = true
      /\ JS.truthy (RunOptions.serve options) && watch_resolves eleventy = false
      /\ In line
           (Logger.effectsOf
              (Logger.call (consoleLogger "forceLog")
                 ("[multisite] Started watching site "
                  ++ RunOptions.sourceDir options))).
Proof.
  rewrite runEleventy_in. unfold afterInit, afterWatch.
  rewrite forceLog_effects. split.
  - intros [Hin | [H | [Hinit Hin]]].
    + destruct (configure_only L options _ Hin).
    + discriminate H.
    + split; [exact Hinit |].
      destruct (JS.truthy (RunOptions.serve options)
                || JS.truthy (RunOptions.watch options)).
      * split; [reflexivity |].
        destruct Hin as [H | Hin]; [discriminate H |].
        destruct (JS.truthy (RunOptions.serve options)
                  && watch_resolves eleventy).
        -- destruct Hin as [H | []]. discriminate H.
        -- split; [reflexivity |].
           apply in_map_iff in Hin. destruct Hin as [x [H Hx]].
           injection H as <-. exact Hx.
      * destruct Hin as [H | []]. discriminate H.
  - intros [Hinit [Hasked [Hnot Hline]]]. right. right.
    split; [exact Hinit |]. rewrite Hasked, Hnot.
    right. apply in_map. exact Hline.
Qed.

(** ** The logger proxy: methods the wrapped object lacks *)

(** X18.  For [log], [forceLog], [warn] and [error] the proxy always
    gives a function, also when the wrapped object has no such method;
    calling it then throws, and nothing has been written. *)
Theorem logger_method_always_a_function
  (Ev D : Type) (target : string -> Logger.Value Ev D) (prop msg : string) :
  In prop ["log"; "forceLog"; "warn"; "error"] ->
  (exists f, Logger.logger target prop = Logger.VFun f)
  /\ ((forall f, target prop <> Logger.VFun f) ->
      Logger.call (Logger.logger target prop) msg = Logger.Throw []).
Proof.
  intros Hin.
  assert (Hinc : JS.includes Logger.intercepted prop = true).
  { simpl in Hin.
    destruct Hin as [H | [H | [H | [H | []]]]]; rewrite <- H; reflexivity. }
  split.
  - unfold Logger.logger. rewrite Hinc. eexists. reflexivity.
  - intros Hnot. rewrite logger_intercepted by exact Hinc.
    destruct (target prop) as [| d | f]; try reflexivity.
    destruct (Hnot f eq_refl).
Qed.

Lemma logger_method_always_a_function_witness :
  (exists f, Logger.logger bareConsole "warn" = Logger.VFun f)
  /\ Logger.call (Logger.logger bareConsole "warn") "no sites found"
     = Logger.Throw [].
Proof.
  destruct (logger_method_always_a_function (string * string) unit bareConsole
              "warn" "no sites found") as [Hfun Hcall].
  - right. right. left. reflexivity.
  - split; [exact Hfun |].
    apply Hcall. intros f H. discriminate H.
Defined.

(** ** findSites: what it reads of the configuration *)

Lemma eachPattern_ext
  (cwd : list string) (globSync : string -> option Patterns -> list string)
  (rules : option (string -> option bool)) (config config' : Config.t)
  (patterns results : list string) :
  Config.baseDir config = Config.baseDir config' ->
  Config.excludes config = Config.excludes config' ->
  (forall base, skipped cwd config base = skipped cwd config' base) ->
  eachPattern cwd globSync rules config patterns results
  = eachPattern cwd globSync rules config' patterns results.
Proof.
  intros Hbase Hexcl Hskip. revert results.
  induction patterns as [| p rest IH]; intros results; cbn [eachPattern].
  - reflexivity.
  - unfold globPattern. rewrite Hbase, Hexcl.
    destruct (ignoreFilter rules _) as [bases |]; simpl; [| reflexivity].
    rewrite IH, !pushBases_spec, Hbase.
    rewrite (filter_ext _ _ (fun base => f_equal negb (Hskip base))).
    reflexivity.
Qed.

(** X19.  [findSites] reads five fields of the configuration only:
    [baseDir], [outDir], [excludes], [includesDir] and [layoutsDir].  In
    particular the globs of [config.sites] play no part in discovery:
    the sites found are those of the [patterns] argument. *)
Theorem findSites_reads_five_fields
  (cwd : list string) (globSync : string -> option Patterns -> list string)
  (gitignore : Gitignore) (config config' : Config.t)
  (patterns : Patterns) :
  Config.baseDir config = Config.baseDir config' ->
  Config.outDir config = Config.outDir config' ->
  Config.excludes config = Config.excludes config' ->
  Config.includesDir config = Config.includesDir config' ->
  Config.layoutsDir config = Config.layoutsDir config' ->
  findSites cwd globSync gitignore config patterns
  = findSites cwd globSync gitignore config' patterns.
Proof.
  intros Hbase Hout Hexcl Hinc Hlay. unfold findSites.
  destruct (readGitignore gitignore) as [rules |]; [| reflexivity].
  cbn [Throwing.bind].
  apply eachPattern_ext; [exact Hbase | exact Hexcl |].
  intros base. unfold skipped. rewrite Hout, Hinc, Hlay. reflexivity.
Qed.

Lemma findSites_reads_five_fields_witness :
  findSites exampleCwd exampleGlobSync Absent (withSites exampleSites) (One "*")
  = findSites exampleCwd exampleGlobSync Absent (withSites []) (One "*").
Proof.
  apply (findSites_reads_five_fields exampleCwd exampleGlobSync Absent
           (withSites exampleSites) (withSites []) (One "*"));
    reflexivity.
Defined.

(** X20.  An [includesDir] or [layoutsDir] set to the empty string is
    treated as not set: [findSites] gives the same outcome as for the
    configuration without it. *)
Theorem findSites_empty_boundary_unset
  (cwd : list string) (globSync : string -> option Patterns -> list string)
  (gitignore : Gitignore) (config config' : Config.t)
  (patterns : Patterns) :
  Config.baseDir config = Config.baseDir config' ->
  Config.outDir config = Config.outDir config' ->
  Config.excludes config = Config.excludes config' ->
  (Config.includesDir config = Config.includesDir config'
   \/ (Config.includesDir config = Some ""
       /\ Config.includesDir config' = None)) ->
  (Config.layoutsDir config = Config.layoutsDir config'
   \/ (Config.layoutsDir config = Some ""
       /\ Config.layoutsDir config' = None)) ->
  findSites cwd globSync gitignore config patterns
  = findSites cwd globSync gitignore config' patterns.
Proof.
  intros Hbase Hout Hexcl Hinc Hlay. unfold findSites.
  destruct (readGitignore gitignore) as [rules |]; [| reflexivity].
  cbn [Throwing.bind].
  apply eachPattern_ext; [exact Hbase | exact Hexcl |].
  intros base. unfold skipped. rewrite Hout.
  destruct Hinc as [-> | [-> ->]]; destruct Hlay as [-> | [-> ->]];
    reflexivity.
Qed.

Lemma findSites_empty_boundary_unset_witness :
  findSites exampleCwd exampleGlobSync Absent emptyIncludesConfig (One "*")
  = findSites exampleCwd exampleGlobSync Absent
      {| Config.baseDir := "sites/";
         Config.outDir := "sites/_out/";
         Config.sites := [];
         Config.pathPrefix := None;
         Config.templateFormats := None;
         Config.excludes := None;
         Config.includesDir := None;
         Config.layoutsDir := None |}
      (One "*").
Proof.
  apply (findSites_empty_boundary_unset exampleCwd exampleGlobSync Absent
           emptyIncludesConfig).
  - reflexivity.
  - reflexivity.
  - reflexivity.
  - right. split; reflexivity.
  - left. reflexivity.
Defined.

(** X21.  Whether a match at or below a boundary directory is dropped is
    decided on the text of the relative path: the match is counted as
    inside unless what remains after the directory's segments begins
    with two dots.  A match equal to the directory is inside; one whose
    first segment below it is named like [..tmp] is not. *)
Theorem inside_below
  (cwd : list string) (dir base : string) (rest : list string) :
  descends dir = true ->
  descends base = true ->
  steps base = (steps dir ++ rest)%list ->
  inside cwd dir base = negb (JS.startsWith (String.concat "/" rest) "..")
  /\ (rest = [] -> inside cwd dir base = true).
Proof.
  intros Hdir Hbase Hsteps. unfold inside.
  rewrite (relative_below cwd dir base rest Hdir Hbase Hsteps).
  split; [reflexivity |]. intros ->. reflexivity.
Qed.

Lemma inside_below_witness :
  inside exampleCwd "sites/_out/" "sites/_out/..tmp/" = false
  /\ inside exampleCwd "sites/_out/" "sites/_out/blog/" = true.
Proof.
  split.
  - destruct (inside_below exampleCwd "sites/_out/" "sites/_out/..tmp/"
                ["..tmp"] eq_refl eq_refl eq_refl) as [Heq _].
    exact Heq.
  - destruct (inside_below exampleCwd "sites/_out/" "sites/_out/blog/"
                ["blog"] eq_refl eq_refl eq_refl) as [Heq _].
    exact Heq.
Defined.
